(** * cloudflare_ddns_updater: a shallow embedding and its properties

    The program keeps one DNS "A" record in step with the machine's public
    IPv4 address.  It is a Python script; this file embeds

    - the Python values the script handles (strings, decoded JSON, the
      exceptions it can meet),
    - the part of the [requests] library it calls (responses,
      [raise_for_status], [Response.json], a session),
    - the functions of [cloudflare_ddns_updater.py], one definition per
      source function and under the source's name,

    and then states and proves the properties of the specification.

    Modelling conventions.

    - A Python [str] is a Rocq [string]; the character tests ([str.strip],
      [str.upper]) are those of ASCII text.
    - A decoded JSON document is a [json] value.  Numbers are integers; a
      Python [dict] is an association list in insertion order, looked up by
      its first matching key.
    - Effects are explicit: a computation of type [M A] takes the trace of
      events so far (HTTP requests issued, log records emitted; most recent
      first) and gives back either a returned value or a raised exception,
      with the extended trace.
    - A session answers a request from the request and the requests issued
      before it, so stateful servers and mocks are covered. *)

From Stdlib Require Import String Ascii ZArith List Bool Lia DecimalString.
From stdpp Require Import gmap strings.
Import ListNotations.
Open Scope Z_scope.

#[local] Set Warnings "-register-all".

(* ===================================================================== *)
(** * Python values *)
(* ===================================================================== *)

Module Py.

(** ** Strings *)

(** [str.isspace] on an ASCII character: tab, line feed, vertical tab, form
    feed, carriage return, the four separators 0x1c-0x1f, and space. *)
Definition isspace (c : ascii) : bool :=
  let n := nat_of_ascii c in
  ((9 <=? n)%nat && (n <=? 13)%nat) || ((28 <=? n)%nat && (n <=? 32)%nat).

Fixpoint lstrip (s : string) : string :=
  match s with
  | EmptyString => EmptyString
  | String c r => if isspace c then lstrip r else s
  end.

Fixpoint rstrip (s : string) : string :=
  match s with
  | EmptyString => EmptyString
  | String c r =>
      match rstrip r with
      | EmptyString => if isspace c then EmptyString else String c EmptyString
      | r' => String c r'
      end
  end.

(** [s.strip()] *)
Definition strip (s : string) : string := lstrip (rstrip s).

Definition upper_char (c : ascii) : ascii :=
  let n := nat_of_ascii c in
  if ((97 <=? n)%nat && (n <=? 122)%nat)%bool then ascii_of_nat (n - 32) else c.

(** [s.upper()] *)
Fixpoint upper (s : string) : string :=
  match s with
  | EmptyString => EmptyString
  | String c r => String (upper_char c) (upper r)
  end.

Fixpoint startswith (p s : string) : bool :=
  match p, s with
  | EmptyString, _ => true
  | String a p', String b s' => Ascii.eqb a b && startswith p' s'
  | String _ _, EmptyString => false
  end.

(** [sub in s] for two strings *)
Fixpoint contains (sub s : string) : bool :=
  startswith sub s ||
  match s with
  | EmptyString => false
  | String _ r => contains sub r
  end.

(** [sep.join(items)] for a list of strings *)
Fixpoint join (sep : string) (items : list string) : string :=
  match items with
  | [] => EmptyString
  | [x] => x
  | x :: rest => x +:+ sep +:+ join sep rest
  end.

(** [bool(s)] for a string: the empty string is false. *)
Definition str_truthy (s : string) : bool :=
  match s with EmptyString => false | _ => true end.

(** [str(n)] for an integer *)
Definition str_of_int (n : Z) : string := NilZero.string_of_int (Z.to_int n).

Definition hex_digit (n : nat) : ascii :=
  if (n <? 10)%nat then ascii_of_nat (48 + n) else ascii_of_nat (87 + n).

(** The double quote character. *)
Definition double_quote : ascii := ascii_of_nat 34.

(** One character of [repr(s)], [q] being the quote [repr] chose. *)
Definition repr_char (q : ascii) (c : ascii) : string :=
  let n := nat_of_ascii c in
  if Ascii.eqb c "\"%char then "\\"
  else if Ascii.eqb c q then String "\"%char (String q EmptyString)
  else if (n =? 9)%nat then "\t"
  else if (n =? 10)%nat then "\n"
  else if (n =? 13)%nat then "\r"
  else if ((n <? 32)%nat || (n =? 127)%nat)%bool then
    String "\"%char (String "x"%char
      (String (hex_digit (n / 16)) (String (hex_digit (n mod 16)) EmptyString)))
  else String c EmptyString.

Fixpoint repr_chars (q : ascii) (s : string) : string :=
  match s with
  | EmptyString => EmptyString
  | String c r => repr_char q c +:+ repr_chars q r
  end.

(** [repr(s)] for a string: single quotes, unless the string holds a single
    quote and no double quote. *)
Definition repr_str (s : string) : string :=
  let q := if (contains "'" s && negb (contains (String double_quote EmptyString) s))%bool
           then double_quote else "'"%char in
  String q (repr_chars q s) +:+ String q EmptyString.

(** ** Decoded JSON *)

Inductive json : Type :=
| JNull                                  (* None *)
| JBool (b : bool)                       (* True, False *)
| JInt (n : Z)                           (* int *)
| JStr (s : string)                      (* str *)
| JList (l : list json)                  (* list *)
| JObj (d : list (string * json)).       (* dict with str keys *)

Fixpoint dict_lookup (k : string) (d : list (string * json)) : option json :=
  match d with
  | [] => None
  | (k', v) :: r => if String.eqb k k' then Some v else dict_lookup k r
  end.

(** [repr(v)] *)
Fixpoint repr (v : json) : string :=
  match v with
  | JNull => "None"
  | JBool true => "True"
  | JBool false => "False"
  | JInt n => str_of_int n
  | JStr s => repr_str s
  | JList l => "[" +:+ join ", " (map repr l) +:+ "]"
  | JObj d =>
      "{" +:+ join ", " (map (fun kv => repr_str (fst kv) +:+ ": " +:+ repr (snd kv)) d)
          +:+ "}"
  end.

(** [str(v)], also what an f-string field and a ["%s"] log argument print *)
Definition str (v : json) : string :=
  match v with
  | JStr s => s
  | _ => repr v
  end.

(** [bool(v)]: the test of [if v:] and [if not v:] *)
Definition truthy (v : json) : bool :=
  match v with
  | JNull => false
  | JBool b => b
  | JInt n => negb (n =? 0)
  | JStr s => str_truthy s
  | JList l => match l with [] => false | _ => true end
  | JObj d => match d with [] => false | _ => true end
  end.

(** The number a [bool] or [int] stands for in a comparison. *)
Definition as_number (v : json) : option Z :=
  match v with
  | JBool b => Some (if b then 1 else 0)
  | JInt n => Some n
  | _ => None
  end.

(** [a == b] *)
Fixpoint eq (a b : json) {struct a} : bool :=
  match a, b with
  | JNull, JNull => true
  | JStr s, JStr t => String.eqb s t
  | JList l1, JList l2 =>
      (fix all2 (xs ys : list json) {struct xs} : bool :=
         match xs, ys with
         | [], [] => true
         | x :: xs', y :: ys' => eq x y && all2 xs' ys'
         | _, _ => false
         end) l1 l2
  | JObj d1, JObj d2 =>
      Nat.eqb (length d1) (length d2) &&
      (fix all1 (xs : list (string * json)) {struct xs} : bool :=
         match xs with
         | [] => true
         | (k, x) :: xs' =>
             match dict_lookup k d2 with
             | Some y => eq x y
             | None => false
             end && all1 xs'
         end) d1
  | (JBool _ | JInt _), (JBool _ | JInt _) =>
      match as_number a, as_number b with
      | Some m, Some n => m =? n
      | _, _ => false
      end
  | _, _ => false
  end.

End Py.

Import Py (json(..)).

(* ===================================================================== *)
(** * Exceptions, results and the effect monad *)
(* ===================================================================== *)

(** The exception classes the script can meet.  [HTTPError] and
    [RequestsJSONDecodeError] are subclasses of
    [requests.exceptions.RequestException]; [RequestException] stands for it
    and its other subclasses (connection errors, timeouts).
    [RequestsJSONDecodeError] (requests 2.27 and later) is also a
    [ValueError]; earlier versions of requests raise a plain [ValueError]
    from [Response.json].  [FrozenInstanceError] is the dataclasses error. *)
Inductive exc_class : Type :=
| RequestException
| HTTPError
| RequestsJSONDecodeError
| ValueError
| KeyError
| IndexError
| TypeError
| AttributeError
| FrozenInstanceError.

(** [isinstance(error, requests.exceptions.RequestException)] *)
Definition is_RequestException (c : exc_class) : bool :=
  match c with
  | RequestException | HTTPError | RequestsJSONDecodeError => true
  | _ => false
  end.

(** [isinstance(error, ValueError)] *)
Definition is_ValueError (c : exc_class) : bool :=
  match c with
  | RequestsJSONDecodeError | ValueError => true
  | _ => false
  end.

(** What [response.json()] does: return the decoded body, or raise. *)
Inductive json_outcome : Type :=
| JsonValue (v : json)
| JsonError (c : exc_class) (msg : string).

(** A [requests.Response], as far as the script looks at it. *)
Record Response : Type := mkResponse {
  status_code : Z;
  reason : string;
  url : string;
  body : json_outcome
}.

(** An exception object: its class, its [str()], and the [response]
    attribute ([None] unless the library attached one). *)
Record exception : Type := mkException {
  exc_type : exc_class;
  exc_str : string;
  exc_response : option Response
}.

Inductive result (A : Type) : Type :=
| Returned (a : A)
| Raised (e : exception).
Arguments Returned {A} a.
Arguments Raised {A} e.

Inductive http_method : Type := GET | PUT.

(** The arguments of one [session.get] or [session.put] call. *)
Record request : Type := mkRequest {
  req_method : http_method;
  req_url : string;
  req_headers : option (list (string * string));
  req_params : option (list (string * string));
  req_json : option json;
  req_timeout : Z
}.

Inductive log_level : Type := INFO | ERROR.

Inductive event : Type :=
| EvRequest (r : request)
| EvLog (level : log_level) (message : string).

(** The events of a run, most recent first. *)
Definition trace : Type := list event.

(** What the transport does with a call: hand back a response, or raise. *)
Inductive http_result : Type :=
| Respond (r : Response)
| Fail (e : exception).

(** A session: given the requests issued before (most recent first) and the
    request at hand, the result of the call. *)
Definition Session : Type := list request -> request -> http_result.

Definition M (A : Type) : Type := trace -> result A * trace.

Definition ret {A} (a : A) : M A := fun t => (Returned a, t).

Definition bind {A B} (m : M A) (k : A -> M B) : M B :=
  fun t =>
    match m t with
    | (Returned a, t') => k a t'
    | (Raised e, t') => (Raised e, t')
    end.

(** [try: body  except <classes> as error: handler] *)
Definition try_except {A} (body : M A) (catches : exc_class -> bool)
    (handler : exception -> M A) : M A :=
  fun t =>
    match body t with
    | (Returned a, t') => (Returned a, t')
    | (Raised e, t') =>
        if catches (exc_type e) then handler e t' else (Raised e, t')
    end.

Declare Scope py_scope.
Delimit Scope py_scope with py.
Notation "x <- m ;; k" := (bind m (fun x => k))
  (at level 100, m at next level, right associativity) : py_scope.
Notation "m ;;; k" := (bind m (fun _ => k))
  (at level 100, right associativity) : py_scope.
Open Scope py_scope.

Definition lift {A} (r : result A) : M A := fun t => (r, t).

Fixpoint requests_of (t : trace) : list request :=
  match t with
  | [] => []
  | EvRequest r :: t' => r :: requests_of t'
  | EvLog _ _ :: t' => requests_of t'
  end.

(** The [PUT] calls of a trace. *)
Definition puts_of (t : trace) : list request :=
  List.filter (fun r => match req_method r with PUT => true | GET => false end)
         (requests_of t).

(** [logging.info(...)] and [logging.error(...)], with the message already
    formatted. *)
Definition logging_info (message : string) : M unit :=
  fun t => (Returned tt, EvLog INFO message :: t).

Definition logging_error (message : string) : M unit :=
  fun t => (Returned tt, EvLog ERROR message :: t).

(** ** Operations on values that can raise *)

Definition type_name (v : json) : string :=
  match v with
  | JNull => "NoneType"
  | JBool _ => "bool"
  | JInt _ => "int"
  | JStr _ => "str"
  | JList _ => "list"
  | JObj _ => "dict"
  end.

Definition builtin_error (c : exc_class) (msg : string) : exception :=
  mkException c msg None.

(** [v[key]] with a string key: only a dict can be indexed so, and the key
    must be there. *)
Definition getitem (v : json) (key : string) : result json :=
  match v with
  | JObj d =>
      match Py.dict_lookup key d with
      | Some x => Returned x
      | None => Raised (builtin_error KeyError (Py.repr_str key))
      end
  | JList _ =>
      Raised (builtin_error TypeError "list indices must be integers or slices, not str")
  | JStr _ =>
      Raised (builtin_error TypeError "string indices must be integers, not 'str'")
  | _ => Raised (builtin_error TypeError
                   ("'" +:+ type_name v +:+ "' object is not subscriptable"))
  end.

(** [v[0]] *)
Definition getitem0 (v : json) : result json :=
  match v with
  | JList (x :: _) => Returned x
  | JList [] => Raised (builtin_error IndexError "list index out of range")
  | JStr (String c _) => Returned (JStr (String c EmptyString))
  | JStr EmptyString => Raised (builtin_error IndexError "string index out of range")
  | JObj _ => Raised (builtin_error KeyError "0")
  | _ => Raised (builtin_error TypeError
                   ("'" +:+ type_name v +:+ "' object is not subscriptable"))
  end.

(** [v.get(key, default)]: a method of dicts only. *)
Definition get (v : json) (key : string) (default : json) : result json :=
  match v with
  | JObj d =>
      match Py.dict_lookup key d with
      | Some x => Returned x
      | None => Returned default
      end
  | _ => Raised (builtin_error AttributeError
                   ("'" +:+ type_name v +:+ "' object has no attribute 'get'"))
  end.

Fixpoint chars_of (s : string) : list json :=
  match s with
  | EmptyString => []
  | String c r => JStr (String c EmptyString) :: chars_of r
  end.

(** The items [for item in v:] runs over: the entries of a list, the keys of
    a dict, the characters of a string; nothing else can be iterated. *)
Definition iterate (v : json) : result (list json) :=
  match v with
  | JList l => Returned l
  | JObj d => Returned (map (fun kv => JStr (fst kv)) d)
  | JStr s => Returned (chars_of s)
  | _ => Raised (builtin_error TypeError
                   ("'" +:+ type_name v +:+ "' object is not iterable"))
  end.

(** ["; ".join(items)]: every item must be a [str]; [i] is the index of the
    first item of [items] in the sequence joined. *)
Fixpoint strings_of (i : nat) (items : list json) : result (list string) :=
  match items with
  | [] => Returned []
  | JStr s :: rest =>
      match strings_of (S i) rest with
      | Returned l => Returned (s :: l)
      | Raised e => Raised e
      end
  | v :: _ => Raised (builtin_error TypeError
                        ("sequence item " +:+ Py.str_of_int (Z.of_nat i)
                           +:+ ": expected str instance, "
                           +:+ type_name v +:+ " found"))
  end.

Definition join_items (sep : string) (items : list json) : result string :=
  match strings_of 0 items with
  | Returned l => Returned (Py.join sep l)
  | Raised e => Raised e
  end.

(** Sequencing of operations that touch no trace. *)
Definition rbind {A B} (r : result A) (k : A -> result B) : result B :=
  match r with
  | Returned a => k a
  | Raised e => Raised e
  end.

Notation "x <~ r ;; k" := (rbind r (fun x => k))
  (at level 100, r at next level, right associativity) : py_scope.

(* ===================================================================== *)
(** * The part of [requests] the script calls *)
(* ===================================================================== *)

(** [response.raise_for_status()]: an [HTTPError] carrying the response for
    a status in 400..599, nothing otherwise. *)
Definition raise_for_status (response : Response) : result unit :=
  let s := status_code response in
  if (400 <=? s) && (s <? 500) then
    Raised (mkException HTTPError
              (Py.str_of_int s +:+ " Client Error: " +:+ reason response
                 +:+ " for url: " +:+ url response)
              (Some response))
  else if (500 <=? s) && (s <? 600) then
    Raised (mkException HTTPError
              (Py.str_of_int s +:+ " Server Error: " +:+ reason response
                 +:+ " for url: " +:+ url response)
              (Some response))
  else Returned tt.

(** [response.json()] *)
Definition Response_json (response : Response) : result json :=
  match body response with
  | JsonValue v => Returned v
  | JsonError c msg => Raised (mkException c msg None)
  end.

(** One call of the transport: the request joins the trace, and the session
    decides the result from the requests issued before. *)
Definition send (session : Session) (r : request) : M Response :=
  fun t =>
    match session (requests_of t) r with
    | Respond response => (Returned response, EvRequest r :: t)
    | Fail e => (Raised e, EvRequest r :: t)
    end.

(** [session.get(url, headers=..., params=..., timeout=...)] *)
Definition session_get (session : Session) (url : string)
    (headers params : option (list (string * string))) (timeout : Z) : M Response :=
  send session (mkRequest GET url headers params None timeout).

(** [session.put(url, headers=..., json=..., timeout=...)] *)
Definition session_put (session : Session) (url : string)
    (headers : list (string * string)) (data : json) (timeout : Z) : M Response :=
  send session (mkRequest PUT url (Some headers) None (Some data) timeout).

(* ===================================================================== *)
(** * cloudflare_ddns_updater.py *)
(* ===================================================================== *)

Definition REQUEST_TIMEOUT_SECONDS : Z := 10.
Definition IPIFY_URL : string := "https://api.ipify.org?format=json".
Definition CLOUDFLARE_API_BASE : string := "https://api.cloudflare.com/client/v4".

(** [@dataclass(frozen=True) class Config] *)
Record Config : Type := mkConfig {
  api_token : string;
  zone_id : string;
  record_name : string
}.



(** [(os.environ.get(name) or "").strip()] *)
Definition environ_get_stripped (environ : gmap string string) (name : string) : string :=
  Py.strip (match environ !! name with
            | Some v => if Py.str_truthy v then v else EmptyString
            | None => EmptyString
            end).

Definition load_config_from_env (environ : gmap string string) : M (option Config) :=
  let api_token := environ_get_stripped environ "CLOUDFLARE_API_TOKEN" in
  let zone_id := environ_get_stripped environ "CLOUDFLARE_ZONE_ID" in
  let record_name := environ_get_stripped environ "CLOUDFLARE_RECORD_NAME" in
  let missing := [] in
  let missing := if negb (Py.str_truthy api_token)
                 then missing ++ ["CLOUDFLARE_API_TOKEN"] else missing in
  let missing := if negb (Py.str_truthy zone_id)
                 then missing ++ ["CLOUDFLARE_ZONE_ID"] else missing in
  let missing := if negb (Py.str_truthy record_name)
                 then missing ++ ["CLOUDFLARE_RECORD_NAME"] else missing in
  match missing with
  | _ :: _ =>
      logging_error ("Missing required environment variable(s): "
                       +:+ Py.join ", " missing);;;
      ret None
  | [] =>
      let token_upper := Py.upper api_token in
      if Py.contains "TOKEN" token_upper
         && (Py.contains "YOUR" token_upper || Py.contains "CLOUDFLARE" token_upper)
      then
        logging_error
          "CLOUDFLARE_API_TOKEN looks like a placeholder value. Set a real API token in .env.";;;
        ret None
      else ret (Some (mkConfig api_token zone_id record_name))
  end.

Definition build_headers (api_token : string) : list (string * string) :=
  [("Authorization", "Bearer " +:+ api_token);
   ("Content-Type", "application/json")].

(** The first loop of [_extract_cloudflare_errors]: one
    ["code=... message=..."] entry per item of [errors]. *)
Fixpoint extract_errors_loop (items : list json) (details : list json)
    : result (list json) :=
  match items with
  | [] => Returned details
  | item :: rest =>
      code <~ get item "code" (JStr "unknown");;
      message <~ get item "message" (JStr "unknown error");;
      extract_errors_loop rest
        (details ++ [JStr ("code=" +:+ Py.str code +:+ " message=" +:+ Py.str message)])
  end.

(** The second loop: a dict message gives its ["message"] entry (itself
    printed when it has none), any other message is printed. *)
Fixpoint extract_messages_loop (items : list json) (details : list json)
    : result (list json) :=
  match items with
  | [] => Returned details
  | message :: rest =>
      match message with
      | JObj _ =>
          text <~ get message "message" (JStr (Py.str message));;
          extract_messages_loop rest (details ++ [text])
      | _ => extract_messages_loop rest (details ++ [JStr (Py.str message)])
      end
  end.

Definition _extract_cloudflare_errors (response : Response) : result string :=
  match Response_json response with
  | Raised e =>
      if is_ValueError (exc_type e) then Returned EmptyString else Raised e
  | Returned payload =>
      errors <~ get payload "errors" (JList []);;
      messages <~ get payload "messages" (JList []);;
      let details := [] in
      error_items <~ iterate errors;;
      details <~ extract_errors_loop error_items details;;
      message_items <~ iterate messages;;
      details <~ extract_messages_loop message_items details;;
      join_items "; " details
  end.

(** Returns the address, or [None] ([JNull]) after a [RequestException]. *)
Definition get_current_ip (session : Session) (timeout : Z) : M json :=
  try_except
    (response <- session_get session IPIFY_URL None None timeout;;
     _ <- lift (raise_for_status response);;
     payload <- lift (Response_json response);;
     lift (getitem payload "ip"))
    is_RequestException
    (fun error =>
       logging_error ("Error getting current IP: " +:+ exc_str error);;;
       ret JNull).

(** The [except] branch shared in shape by the lookup and the update:
    extract the provider's details when the error carries a response, and
    log with or without them. *)
Definition log_request_error (what : string) (error : exception) : M unit :=
  error_details <-
    match exc_response error with
    | Some response => lift (_extract_cloudflare_errors response)
    | None => ret EmptyString
    end;;
  if Py.str_truthy error_details then
    logging_error (what +:+ exc_str error +:+ " (" +:+ error_details +:+ ")")
  else
    logging_error (what +:+ exc_str error).

(** Returns the first record, or [None] ([JNull]). *)
Definition get_dns_record (zone_id record_name : string)
    (headers : list (string * string)) (session : Session) (timeout : Z) : M json :=
  let url := CLOUDFLARE_API_BASE +:+ "/zones/" +:+ zone_id +:+ "/dns_records" in
  let params := [("type", "A"); ("name", record_name)] in
  try_except
    (response <- session_get session url (Some headers) (Some params) timeout;;
     _ <- lift (raise_for_status response);;
     payload <- lift (Response_json response);;
     records <- lift (get payload "result" (JList []));;
     if Py.truthy records then lift (getitem0 records) else ret JNull)
    is_RequestException
    (fun error =>
       log_request_error "Error getting DNS record: " error;;;
       ret JNull).

Definition update_dns_record (zone_id : string) (record new_ip : json)
    (headers : list (string * string)) (session : Session) (timeout : Z) : M bool :=
  record_id <- lift (getitem record "id");;
  record_name <- lift (getitem record "name");;
  ttl <- lift (get record "ttl" (JInt 1));;
  proxied <- lift (get record "proxied" (JBool false));;
  let url := CLOUDFLARE_API_BASE +:+ "/zones/" +:+ zone_id +:+ "/dns_records/"
               +:+ Py.str record_id in
  let data := JObj [("type", JStr "A");
                    ("name", record_name);
                    ("content", new_ip);
                    ("ttl", ttl);
                    ("proxied", proxied)] in
  try_except
    (response <- session_put session url headers data timeout;;
     _ <- lift (raise_for_status response);;
     logging_info ("DNS record for " +:+ Py.str record_name +:+ " updated to "
                     +:+ Py.str new_ip);;;
     ret true)
    is_RequestException
    (fun error =>
       log_request_error "Error updating DNS record: " error;;;
       ret false).

(** [main()], run with the process environment [environ] and with
    [requests], the library's own session, as the transport.  The value
    returned is the exit code. *)
Definition main (environ : gmap string string) (requests : Session) : M Z :=
  config <- load_config_from_env environ;;
  match config with
  | None => ret 1
  | Some config =>
      let headers := build_headers (api_token config) in
      logging_info "Starting Cloudflare DDNS update process...";;;
      current_ip <- get_current_ip requests REQUEST_TIMEOUT_SECONDS;;
      if negb (Py.truthy current_ip) then
        logging_error "Could not determine current public IP. Exiting.";;;
        ret 1
      else
        logging_info ("Current public IP: " +:+ Py.str current_ip);;;
        dns_record <- get_dns_record (zone_id config) (record_name config) headers
                        requests REQUEST_TIMEOUT_SECONDS;;
        if negb (Py.truthy dns_record) then
          logging_error ("DNS record for " +:+ record_name config
            +:+ " not found. Please create it manually in Cloudflare first. Exiting.");;;
          ret 1
        else
          existing_ip <- lift (getitem dns_record "content");;
          logging_info ("Existing Cloudflare DNS IP for " +:+ record_name config
                          +:+ ": " +:+ Py.str existing_ip);;;
          returned <-
            (if Py.eq current_ip existing_ip then
               logging_info "Current IP matches existing DNS record. No update needed.";;;
               ret None
             else
               logging_info ("IP mismatch detected. Updating " +:+ record_name config
                               +:+ " from " +:+ Py.str existing_ip
                               +:+ " to " +:+ Py.str current_ip +:+ "...");;;
               updated <- update_dns_record (zone_id config) dns_record current_ip
                            headers requests REQUEST_TIMEOUT_SECONDS;;
               if updated then
                 logging_info "DDNS update successful.";;;
                 ret None
               else
                 logging_error "DDNS update failed.";;;
                 ret (Some 1));;
          match returned with
          | Some code => ret code
          | None =>
              logging_info "Cloudflare DDNS update process finished.";;;
              ret 0
          end
  end.

(** ** Vocabulary of the statements *)

(** A string made of whitespace only (the empty string included). *)
Fixpoint all_space (s : string) : bool :=
  match s with
  | EmptyString => true
  | String c r => Py.isspace c && all_space r
  end.

(** A computation that issues no [PUT]: whatever it does, the [PUT] calls of
    the trace are those made before it. *)
Definition issues_no_put {A} (m : M A) : Prop :=
  forall t r t', m t = (r, t') -> puts_of t' = puts_of t.

(** A result of the transport that the [except] branches of the lookup and
    of the update digest: the call returns a response or raises a
    [RequestException], and the extraction of the provider's details from
    the response the error carries (the response itself, for a status in
    400..599) returns. *)
Definition digestible (o : http_result) : Prop :=
  match o with
  | Respond r =>
      400 <= status_code r < 600 ->
      exists details, _extract_cloudflare_errors r = Returned details
  | Fail e =>
      is_RequestException (exc_type e) = true
      /\ forall r, exc_response e = Some r ->
                   exists details, _extract_cloudflare_errors r = Returned details
  end.



(** The traces at which [main] calls its steps: each step starts from the
    trace the step before left, with the log records [main] writes in
    between. *)
Definition at_resolve (t0 : trace) : trace :=
  EvLog INFO "Starting Cloudflare DDNS update process..." :: t0.

Definition at_lookup (current_ip : json) (t1 : trace) : trace :=
  EvLog INFO ("Current public IP: " +:+ Py.str current_ip) :: t1.

Definition at_compare (config : Config) (existing_ip : json) (t2 : trace) : trace :=
  EvLog INFO ("Existing Cloudflare DNS IP for " +:+ record_name config
                +:+ ": " +:+ Py.str existing_ip) :: t2.

Definition at_update (config : Config) (current_ip existing_ip : json) (t2 : trace)
    : trace :=
  EvLog INFO ("IP mismatch detected. Updating " +:+ record_name config
                +:+ " from " +:+ Py.str existing_ip
                +:+ " to " +:+ Py.str current_ip +:+ "...")
        :: at_compare config existing_ip t2.

(** The run of [main] started at trace [t] reaches the comparison of line
    175: the configuration loaded, the resolver returned a true value
    [current_ip], the lookup returned a true value [dns_record], which has a
    ["content"] entry [existing_ip]; [t2] is the trace after the lookup. *)
Definition reaches_comparison (environ : gmap string string) (requests : Session)
    (t : trace) (config : Config) (current_ip dns_record existing_ip : json)
    (t2 : trace) : Prop :=
  exists t0 t1,
    load_config_from_env environ t = (Returned (Some config), t0)
    /\ get_current_ip requests REQUEST_TIMEOUT_SECONDS (at_resolve t0)
       = (Returned current_ip, t1)
    /\ Py.truthy current_ip = true
    /\ get_dns_record (zone_id config) (record_name config)
         (build_headers (api_token config)) requests REQUEST_TIMEOUT_SECONDS
         (at_lookup current_ip t1)
       = (Returned dns_record, t2)
    /\ Py.truthy dns_record = true
    /\ getitem dns_record "content" = Returned existing_ip.

(** ** Sample values for the examples

    The environment, the record and the addresses are those of the
    end-to-end scenarios of the specification. *)

Definition sample_environ : gmap string string :=
  {[ "CLOUDFLARE_API_TOKEN" := " 3f9c2d7e1b "; "CLOUDFLARE_ZONE_ID" := "z1";
     "CLOUDFLARE_RECORD_NAME" := "a.example.com" ]}.

Definition sample_config : Config := mkConfig "3f9c2d7e1b" "z1" "a.example.com".

Definition sample_fields : list (string * json) :=
  [("id", JStr "r1"); ("content", JStr "1.2.3.4"); ("ttl", JInt 300);
   ("proxied", JBool true); ("name", JStr "a.example.com")].

Definition sample_record : json := JObj sample_fields.

(** The same record without [ttl] and [proxied]. *)
Definition bare_fields : list (string * json) :=
  [("id", JStr "r1"); ("content", JStr "1.2.3.4"); ("name", JStr "a.example.com")].

Definition respond (status : Z) (reason : string) (v : json) : http_result :=
  Respond (mkResponse status reason "https://api.example" (JsonValue v)).

(** A stateless session: the IP-echo service answers [ip_answer], the record
    listing answers [lookup_answer], the update answers [put_answer]. *)
Definition sample_session (ip_answer lookup_answer put_answer : http_result) : Session :=
  fun _ r =>
    match req_method r with
    | PUT => put_answer
    | GET => if String.eqb (req_url r) IPIFY_URL then ip_answer else lookup_answer
    end.

Definition ip_body (ip : string) : json := JObj [("ip", JStr ip)].

Definition listing (records : list json) : json := JObj [("result", JList records)].

Definition network_error : exception :=
  mkException RequestException "network error" None.

(** ** Vocabulary of the further properties *)

(** A computation that issues no call at all. *)
Definition silent {A} (m : M A) : Prop :=
  forall t r t', m t = (r, t') -> requests_of t' = requests_of t.

(** The messages of the [ERROR] records of a trace. *)
Fixpoint errors_of (t : trace) : list string :=
  match t with
  | [] => []
  | EvLog ERROR message :: t' => message :: errors_of t'
  | _ :: t' => errors_of t'
  end.

(** The test of line 48 on the stripped token. *)
Definition looks_like_placeholder (token : string) : bool :=
  let token_upper := Py.upper token in
  Py.contains "TOKEN" token_upper
  && (Py.contains "YOUR" token_upper || Py.contains "CLOUDFLARE" token_upper).

(** The names [load_config_from_env] reads, in the order it tests them. *)
Definition required_variables : list string :=
  ["CLOUDFLARE_API_TOKEN"; "CLOUDFLARE_ZONE_ID"; "CLOUDFLARE_RECORD_NAME"].

(** The two [GET] calls of [main]. *)
Definition resolver_call : request :=
  mkRequest GET IPIFY_URL None None None REQUEST_TIMEOUT_SECONDS.

Definition lookup_call (config : Config) : request :=
  mkRequest GET
    (CLOUDFLARE_API_BASE +:+ "/zones/" +:+ zone_id config +:+ "/dns_records")
    (Some (build_headers (api_token config)))
    (Some [("type", "A"); ("name", record_name config)])
    None REQUEST_TIMEOUT_SECONDS.

(** ** A provider that stores what it is sent

    A model of the two services, for statements about consecutive runs:
    the IP-echo service always answers [public_ip]; the provider accepts
    every [PUT], and its listing shows one record whose content is the
    content of the latest [PUT] (or [initial], before any). *)

Fixpoint stored_content (initial : json) (history : list request) : json :=
  match history with
  | [] => initial
  | r :: earlier =>
      match req_method r, req_json r with
      | PUT, Some (JObj payload) =>
          match Py.dict_lookup "content" payload with
          | Some content => content
          | None => stored_content initial earlier
          end
      | _, _ => stored_content initial earlier
      end
  end.

Definition storing_provider (public_ip rid name initial : string) : Session :=
  fun history r =>
    match req_method r with
    | PUT => respond 200 "OK" (JObj [("success", JBool true)])
    | GET =>
        if String.eqb (req_url r) IPIFY_URL then respond 200 "OK" (ip_body public_ip)
        else respond 200 "OK"
               (listing [JObj [("id", JStr rid);
                               ("name", JStr name);
                               ("content", stored_content (JStr initial) history);
                               ("ttl", JInt 300);
                               ("proxied", JBool true)]])
    end.

(* ===================================================================== *)
(** * Properties *)
(* ===================================================================== *)

(** ** Python strings *)

Section Strings.

Lemma strip_empty : Py.strip EmptyString = EmptyString.
Proof. reflexivity. Qed.

Lemma append_cons (c : ascii) (s1 s2 : string) :
  String c s1 +:+ s2 = String c (s1 +:+ s2).
Proof. reflexivity. Qed.

Lemma append_empty_l (s : string) : EmptyString +:+ s = s.
Proof. reflexivity. Qed.

Lemma str_truthy_nonempty (s : string) :
  Py.str_truthy s = true <-> s <> EmptyString.
Proof. destruct s; simpl; split; congruence. Qed.

Lemma str_truthy_false (s : string) :
  Py.str_truthy s = false <-> s = EmptyString.
Proof. destruct s; simpl; split; congruence. Qed.

Lemma rstrip_all_space (s : string) :
  all_space s = true -> Py.rstrip s = EmptyString.
Proof.
  induction s as [|c r IH]; simpl; [reflexivity|].
  intros [Hc Hr]%andb_prop. rewrite (IH Hr), Hc. reflexivity.
Qed.

Lemma rstrip_empty_all_space (s : string) :
  Py.rstrip s = EmptyString -> all_space s = true.
Proof.
  induction s as [|c r IH]; simpl; [reflexivity|].
  destruct (Py.rstrip r) eqn:E; [|discriminate].
  destruct (Py.isspace c); [|discriminate].
  intros _. simpl. apply IH. reflexivity.
Qed.


(** [rstrip] only removes a whitespace suffix. *)
Lemma rstrip_decompose (s : string) :
  exists w, s = Py.rstrip s +:+ w /\ all_space w = true.
Proof.
  induction s as [|c r (w & Hs & Hw)]; simpl.
  - exists EmptyString. split; reflexivity.
  - destruct (Py.rstrip r) as [|c' r'] eqn:E.
    + destruct (Py.isspace c) eqn:Hc.
      * exists (String c r). simpl. split; [reflexivity|].
        rewrite Hc. simpl. simpl in Hs. subst r. exact Hw.
      * exists w. simpl. simpl in Hs. subst r. split; [reflexivity|exact Hw].
    + exists w. split; [|exact Hw]. rewrite Hs at 1. reflexivity.
Qed.

(** [lstrip] only removes a whitespace prefix. *)
Lemma lstrip_decompose (s : string) :
  exists w, s = w +:+ Py.lstrip s /\ all_space w = true.
Proof.
  induction s as [|c r (w & Hs & Hw)]; simpl.
  - exists EmptyString. split; reflexivity.
  - destruct (Py.isspace c) eqn:Hc.
    + exists (String c w). simpl. rewrite Hc, Hw. split; [|reflexivity].
      rewrite append_cons. f_equal. exact Hs.
    + exists EmptyString. split; reflexivity.
Qed.

(** [strip] removes a whitespace prefix and a whitespace suffix, and
    nothing else. *)
Lemma strip_decompose (s : string) :
  exists l r, s = l +:+ Py.strip s +:+ r
              /\ all_space l = true /\ all_space r = true.
Proof.
  unfold Py.strip.
  destruct (rstrip_decompose s) as (r & Hs & Hr).
  destruct (lstrip_decompose (Py.rstrip s)) as (l & Hl & Hlw).
  exists l, r. split; [|split; assumption].
  rewrite Hs at 1. rewrite Hl at 1.
  clear. induction l as [|c l IH]; [reflexivity|].
  rewrite !append_cons. f_equal. exact IH.
Qed.


(** What [strip] leaves neither starts nor ends with whitespace. *)
Lemma lstrip_head (s : string) (c : ascii) (r : string) :
  Py.lstrip s = String c r -> Py.isspace c = false.
Proof.
  induction s as [|c' r' IH]; simpl; [discriminate|].
  destruct (Py.isspace c') eqn:E; [exact IH|]. intros [= -> _]. exact E.
Qed.

Lemma strip_head (s : string) (c : ascii) (r : string) :
  Py.strip s = String c r -> Py.isspace c = false.
Proof. apply lstrip_head. Qed.

Lemma rstrip_last (s r : string) (c : ascii) :
  Py.rstrip s = r +:+ String c EmptyString -> Py.isspace c = false.
Proof.
  revert r. induction s as [|a s' IH]; intros r; simpl.
  - destruct r; discriminate.
  - destruct (Py.rstrip s') as [|b r''] eqn:E.
    + destruct (Py.isspace a) eqn:Ha.
      * destruct r; discriminate.
      * destruct r as [|a' r0]; [intros [= <-]; exact Ha|].
        rewrite append_cons. intros [= _ H]. destruct r0; discriminate.
    + destruct r as [|a' r0]; [discriminate|].
      rewrite append_cons. intros [= _ H]. apply (IH r0). exact H.
Qed.

Lemma append_assoc (s1 s2 s3 : string) : (s1 +:+ s2) +:+ s3 = s1 +:+ s2 +:+ s3.
Proof.
  induction s1 as [|c s1 IH]; [reflexivity|]. rewrite !append_cons, IH. reflexivity.
Qed.

Lemma strip_last (s r : string) (c : ascii) :
  Py.strip s = r +:+ String c EmptyString -> Py.isspace c = false.
Proof.
  unfold Py.strip. intros H.
  destruct (lstrip_decompose (Py.rstrip s)) as (w & Hw & _).
  rewrite H, <- append_assoc in Hw. exact (rstrip_last _ _ _ Hw).
Qed.

End Strings.

(** ** The configuration loader *)

Section Configuration.

Variable environ : gmap string string.



(** The loader returns a configuration only when none of the three
    stripped values is empty, and then it is made of these values. *)
Lemma load_config_some (t t' : trace) (cfg : Config) :
  load_config_from_env environ t = (Returned (Some cfg), t') ->
  cfg = mkConfig (environ_get_stripped environ "CLOUDFLARE_API_TOKEN")
                 (environ_get_stripped environ "CLOUDFLARE_ZONE_ID")
                 (environ_get_stripped environ "CLOUDFLARE_RECORD_NAME")
  /\ api_token cfg <> EmptyString
  /\ zone_id cfg <> EmptyString
  /\ record_name cfg <> EmptyString
  /\ t' = t.
Proof.
  unfold load_config_from_env.
  destruct (environ_get_stripped environ "CLOUDFLARE_API_TOKEN") as [|a1 r1] eqn:E1;
    destruct (environ_get_stripped environ "CLOUDFLARE_ZONE_ID") as [|a2 r2] eqn:E2;
    destruct (environ_get_stripped environ "CLOUDFLARE_RECORD_NAME") as [|a3 r3] eqn:E3;
    cbn [Py.str_truthy negb app]; try discriminate.
  match goal with |- context [if ?c then _ else _] => destruct c end;
    [discriminate|].
  unfold ret. intros [= <- <-]. cbn. repeat split; discriminate.
Qed.


End Configuration.

(** ** The effect monad *)

Section Monad.

Context {A B : Type}.

Lemma bind_returned (m : M A) (k : A -> M B) (t t' : trace) (a : A) :
  m t = (Returned a, t') -> bind m k t = k a t'.
Proof. unfold bind. intros ->. reflexivity. Qed.

Lemma bind_raised (m : M A) (k : A -> M B) (t t' : trace) (e : exception) :
  m t = (Raised e, t') -> bind m k t = (Raised e, t').
Proof. unfold bind. intros ->. reflexivity. Qed.

Lemma puts_of_log (level : log_level) (message : string) (t : trace) :
  puts_of (EvLog level message :: t) = puts_of t.
Proof. reflexivity. Qed.

Lemma puts_of_get (r : request) (t : trace) :
  req_method r = GET -> puts_of (EvRequest r :: t) = puts_of t.
Proof. unfold puts_of. simpl. intros ->. reflexivity. Qed.

Lemma puts_of_put (r : request) (t : trace) :
  req_method r = PUT -> puts_of (EvRequest r :: t) = r :: puts_of t.
Proof. unfold puts_of. simpl. intros ->. reflexivity. Qed.

Lemma no_put_ret (a : A) : issues_no_put (ret a).
Proof. intros t r t' [= _ ->]. reflexivity. Qed.

Lemma no_put_lift (x : result A) : issues_no_put (lift x).
Proof. intros t r t' [= _ ->]. reflexivity. Qed.

Lemma no_put_bind (m : M A) (k : A -> M B) :
  issues_no_put m -> (forall a, issues_no_put (k a)) -> issues_no_put (bind m k).
Proof.
  intros Hm Hk t r t'. unfold bind.
  destruct (m t) as [[a|e] t1] eqn:E.
  - intros H. rewrite (Hk a _ _ _ H). exact (Hm _ _ _ E).
  - intros [= _ <-]. exact (Hm _ _ _ E).
Qed.

Lemma no_put_try (m : M A) (c : exc_class -> bool) (h : exception -> M A) :
  issues_no_put m -> (forall e, issues_no_put (h e)) ->
  issues_no_put (try_except m c h).
Proof.
  intros Hm Hh t r t'. unfold try_except.
  destruct (m t) as [[a|e] t1] eqn:E.
  - intros [= _ <-]. exact (Hm _ _ _ E).
  - destruct (c (exc_type e)).
    + intros H. rewrite (Hh e _ _ _ H). exact (Hm _ _ _ E).
    + intros [= _ <-]. exact (Hm _ _ _ E).
Qed.

End Monad.

Lemma no_put_logging_info (message : string) : issues_no_put (logging_info message).
Proof. intros t r t' [= _ <-]. reflexivity. Qed.

Lemma no_put_logging_error (message : string) : issues_no_put (logging_error message).
Proof. intros t r t' [= _ <-]. reflexivity. Qed.

Lemma no_put_session_get (session : Session) (u : string)
    (headers params : option (list (string * string))) (timeout : Z) :
  issues_no_put (session_get session u headers params timeout).
Proof.
  intros t r t'. unfold session_get, send.
  destruct (session _ _); intros [= _ <-]; apply puts_of_get; reflexivity.
Qed.

Create HintDb no_put.

#[local] Hint Resolve no_put_ret no_put_lift no_put_logging_info
  no_put_logging_error no_put_session_get : no_put.

Ltac no_put :=
  repeat first
    [ apply no_put_bind; [|intros ?]
    | apply no_put_try; [|intros ?]
    | solve [auto with no_put]
    | match goal with
      | |- issues_no_put (if ?c then _ else _) => destruct c
      | |- issues_no_put (match ?x with _ => _ end) => destruct x
      end ].

Lemma no_put_log_request_error (what : string) (error : exception) :
  issues_no_put (log_request_error what error).
Proof. unfold log_request_error. no_put. Qed.

Lemma no_put_get_current_ip (session : Session) (timeout : Z) :
  issues_no_put (get_current_ip session timeout).
Proof. unfold get_current_ip. no_put. Qed.

Lemma no_put_get_dns_record (zone record : string) (headers : list (string * string))
    (session : Session) (timeout : Z) :
  issues_no_put (get_dns_record zone record headers session timeout).
Proof.
  unfold get_dns_record. pose proof no_put_log_request_error. no_put.
Qed.

Lemma no_put_load_config (environ : gmap string string) :
  issues_no_put (load_config_from_env environ).
Proof. unfold load_config_from_env. no_put. Qed.

(** ** The transport *)

Section Transport.

Lemma raise_for_status_returned (r : Response) :
  ~ (400 <= status_code r < 600) -> raise_for_status r = Returned tt.
Proof.
  intros H. unfold raise_for_status.
  destruct (400 <=? status_code r) eqn:E1; destruct (status_code r <? 500) eqn:E2;
    destruct (500 <=? status_code r) eqn:E3; destruct (status_code r <? 600) eqn:E4;
    simpl; try reflexivity; exfalso; apply H; lia.
Qed.

Lemma raise_for_status_raised (r : Response) :
  400 <= status_code r < 600 ->
  exists message,
    raise_for_status r = Raised (mkException HTTPError message (Some r)).
Proof.
  intros H. unfold raise_for_status.
  destruct (400 <=? status_code r) eqn:E1; destruct (status_code r <? 500) eqn:E2;
    destruct (500 <=? status_code r) eqn:E3; destruct (status_code r <? 600) eqn:E4;
    simpl; try (eexists; reflexivity); exfalso; lia.
Qed.

Lemma raise_for_status_cases (r : Response) :
  (~ (400 <= status_code r < 600) /\ raise_for_status r = Returned tt)
  \/ (400 <= status_code r < 600
      /\ exists message,
           raise_for_status r = Raised (mkException HTTPError message (Some r))).
Proof.
  destruct (Z_le_dec 400 (status_code r)); destruct (Z_lt_dec (status_code r) 600);
    try (left; split; [lia | apply raise_for_status_returned; lia]).
  right. split; [lia|]. apply raise_for_status_raised. lia.
Qed.

(** The [except] branch, when the error carries no response. *)
Lemma log_request_error_no_response (what : string) (e : exception) (t : trace) :
  exc_response e = None ->
  log_request_error what e t = (Returned tt, EvLog ERROR (what +:+ exc_str e) :: t).
Proof. unfold log_request_error. intros ->. reflexivity. Qed.

(** The [except] branch, when the extraction returns: one [ERROR] record,
    which starts with the context and the error, and holds the details. *)
Lemma log_request_error_details (what : string) (e : exception) (t : trace)
    (r : Response) (details : string) :
  exc_response e = Some r ->
  _extract_cloudflare_errors r = Returned details ->
  log_request_error what e t =
    (Returned tt,
     EvLog ERROR (if Py.str_truthy details
                  then what +:+ exc_str e +:+ " (" +:+ details +:+ ")"
                  else what +:+ exc_str e) :: t).
Proof.
  unfold log_request_error. intros -> H.
  unfold bind, lift. rewrite H. destruct (Py.str_truthy details); reflexivity.
Qed.

(** The [except] branch, when the extraction raises: the exception leaves
    the branch. *)
Lemma log_request_error_raises (what : string) (e e' : exception) (t : trace)
    (r : Response) :
  exc_response e = Some r ->
  _extract_cloudflare_errors r = Raised e' ->
  log_request_error what e t = (Raised e', t).
Proof.
  unfold log_request_error. intros -> H. unfold bind, lift. rewrite H. reflexivity.
Qed.

(** In both returning cases the branch leaves exactly one [ERROR] record,
    and the record starts with the context. *)
Lemma log_request_error_returns (what : string) (e : exception) (t : trace) :
  (forall r, exc_response e = Some r ->
             exists details, _extract_cloudflare_errors r = Returned details) ->
  exists rest,
    log_request_error what e t = (Returned tt, EvLog ERROR (what +:+ rest) :: t).
Proof.
  intros H. destruct (exc_response e) as [r|] eqn:E.
  - destruct (H r eq_refl) as [details Hd].
    rewrite (log_request_error_details _ _ _ _ _ E Hd).
    destruct (Py.str_truthy details); eexists; reflexivity.
  - eexists. apply log_request_error_no_response. exact E.
Qed.

End Transport.

(** ** The update *)

Section Update.

Variables (zone : string) (d : list (string * json)) (new_ip : json)
          (headers : list (string * string)) (session : Session)
          (timeout : Z) (t : trace).
Variables (rid name : json).
Hypothesis Hid : Py.dict_lookup "id" d = Some rid.
Hypothesis Hname : Py.dict_lookup "name" d = Some name.

(** The call [update_dns_record] makes for a record with an identifier
    and a name. *)
Let sent : request :=
  mkRequest PUT
    (CLOUDFLARE_API_BASE +:+ "/zones/" +:+ zone +:+ "/dns_records/" +:+ Py.str rid)
    (Some headers) None
    (Some (JObj [("type", JStr "A");
                 ("name", name);
                 ("content", new_ip);
                 ("ttl", default (JInt 1) (Py.dict_lookup "ttl" d));
                 ("proxied", default (JBool false) (Py.dict_lookup "proxied" d))]))
    timeout.

(** The whole of [update_dns_record] on such a record, by the result of
    the transport. *)
Lemma update_dns_record_cases :
  update_dns_record zone (JObj d) new_ip headers session timeout t =
  match session (requests_of t) sent with
  | Respond response =>
      match raise_for_status response with
      | Returned _ =>
          (Returned true,
           EvLog INFO ("DNS record for " +:+ Py.str name +:+ " updated to "
                         +:+ Py.str new_ip) :: EvRequest sent :: t)
      | Raised e =>
          bind (log_request_error "Error updating DNS record: " e)
               (fun _ => ret false) (EvRequest sent :: t)
      end
  | Fail e =>
      if is_RequestException (exc_type e) then
        bind (log_request_error "Error updating DNS record: " e)
             (fun _ => ret false) (EvRequest sent :: t)
      else (Raised e, EvRequest sent :: t)
  end.
Proof.
  unfold update_dns_record, bind at 1 2 3 4, lift, getitem, get.
  rewrite Hid, Hname.
  assert (Httl : match Py.dict_lookup "ttl" d with
                 | Some x => Returned x | None => Returned (JInt 1) end
                 = Returned (default (JInt 1) (Py.dict_lookup "ttl" d)))
    by (destruct (Py.dict_lookup "ttl" d); reflexivity).
  assert (Hpr : match Py.dict_lookup "proxied" d with
                | Some x => Returned x | None => Returned (JBool false) end
                = Returned (default (JBool false) (Py.dict_lookup "proxied" d)))
    by (destruct (Py.dict_lookup "proxied" d); reflexivity).
  rewrite Httl, Hpr. clear Httl Hpr.
  unfold try_except, session_put, send, bind. fold sent.
  destruct (session (requests_of t) sent) as [response|e]; [|reflexivity].
  destruct (raise_for_status_cases response) as [[Hs Hr]|[Hs [message Hr]]];
    rewrite Hr; reflexivity.
Qed.

(** Whatever the transport does, the update issues exactly one call, and
    it is [sent]. *)
Lemma update_dns_record_sends (r : result bool) (t' : trace) :
  update_dns_record zone (JObj d) new_ip headers session timeout t = (r, t') ->
  requests_of t' = sent :: requests_of t.
Proof.
  rewrite update_dns_record_cases.
  assert (Hh : forall e r t', bind (log_request_error "Error updating DNS record: " e)
                     (fun _ => ret false) (EvRequest sent :: t) = (r, t') ->
                   requests_of t' = sent :: requests_of t).
  { intros e r0 t0. unfold bind.
    destruct (exc_response e) as [resp|] eqn:E.
    - destruct (_extract_cloudflare_errors resp) as [details|e'] eqn:X.
      + rewrite (log_request_error_details _ _ _ _ _ E X).
        intros [= _ <-]. reflexivity.
      + rewrite (log_request_error_raises _ _ _ _ _ E X).
        intros [= _ <-]. reflexivity.
    - rewrite (log_request_error_no_response _ _ _ E).
      intros [= _ <-]. reflexivity. }
  destruct (session (requests_of t) sent) as [response|e].
  - destruct (raise_for_status response) as [[]|e].
    + intros [= _ <-]. reflexivity.
    + apply Hh.
  - destruct (is_RequestException (exc_type e)).
    + apply Hh.
    + intros [= _ <-]. reflexivity.
Qed.

End Update.

(** ** The update: what is sent *)

(** C2.  For a record that carries an explicit TTL and an explicit proxy
    flag (and, as every record, an identifier and a name), the update makes
    exactly one [PUT] call, and its JSON payload is type ["A"], the record's
    own name, the new address as content, and the record's own [ttl] and
    [proxied] values: of the record's fields only the content changes. *)
Theorem update_preserves_ttl_and_proxied
    (zone : string) (d : list (string * json)) (new_ip : json)
    (headers : list (string * string)) (session : Session) (timeout : Z)
    (t : trace) (rid name ttl proxied : json) :
  Py.dict_lookup "id" d = Some rid ->
  Py.dict_lookup "name" d = Some name ->
  Py.dict_lookup "ttl" d = Some ttl ->
  Py.dict_lookup "proxied" d = Some proxied ->
  exists sent,
    puts_of (snd (update_dns_record zone (JObj d) new_ip headers session timeout t))
      = sent :: puts_of t
    /\ req_url sent = CLOUDFLARE_API_BASE +:+ "/zones/" +:+ zone +:+ "/dns_records/"
                        +:+ Py.str rid
    /\ req_json sent = Some (JObj [("type", JStr "A");
                                   ("name", name);
                                   ("content", new_ip);
                                   ("ttl", ttl);
                                   ("proxied", proxied)]).
Proof.
  intros Hid Hname Httl Hproxied.
  destruct (update_dns_record zone (JObj d) new_ip headers session timeout t)
    as [r t'] eqn:E.
  pose proof (update_dns_record_sends _ _ _ _ _ _ _ _ _ Hid Hname _ _ E) as Hsent.
  eexists. split; [|split].
  - simpl. unfold puts_of. rewrite Hsent. reflexivity.
  - reflexivity.
  - simpl. rewrite Httl, Hproxied. reflexivity.
Qed.

(** An instance, at the values of the scenarios. *)
Lemma update_preserves_ttl_and_proxied_witness :
  exists sent,
    puts_of (snd (update_dns_record "z1" sample_record (JStr "8.8.8.8")
                    (build_headers "3f9c2d7e1b")
                    (sample_session (respond 200 "OK" (ip_body "8.8.8.8"))
                                    (respond 200 "OK" (listing [sample_record]))
                                    (respond 200 "OK" JNull))
                    11 []))
      = sent :: puts_of []
    /\ req_url sent = CLOUDFLARE_API_BASE +:+ "/zones/" +:+ "z1" +:+ "/dns_records/"
                        +:+ Py.str (JStr "r1")
    /\ req_json sent = Some (JObj [("type", JStr "A");
                                   ("name", JStr "a.example.com");
                                   ("content", JStr "8.8.8.8");
                                   ("ttl", JInt 300);
                                   ("proxied", JBool true)]).
Proof.
  apply (update_preserves_ttl_and_proxied "z1" sample_fields); reflexivity.
Defined.

(** C3.  For a record without a ["ttl"] key the payload of the [PUT] carries
    [ttl = 1], and for a record without a ["proxied"] key it carries
    [proxied = False]. *)
Theorem update_substitutes_defaults
    (zone : string) (d : list (string * json)) (new_ip : json)
    (headers : list (string * string)) (session : Session) (timeout : Z)
    (t : trace) (rid name : json) :
  Py.dict_lookup "id" d = Some rid ->
  Py.dict_lookup "name" d = Some name ->
  exists sent payload,
    puts_of (snd (update_dns_record zone (JObj d) new_ip headers session timeout t))
      = sent :: puts_of t
    /\ req_json sent = Some payload
    /\ (Py.dict_lookup "ttl" d = None -> getitem payload "ttl" = Returned (JInt 1))
    /\ (Py.dict_lookup "proxied" d = None ->
        getitem payload "proxied" = Returned (JBool false)).
Proof.
  intros Hid Hname.
  destruct (update_dns_record zone (JObj d) new_ip headers session timeout t)
    as [r t'] eqn:E.
  pose proof (update_dns_record_sends _ _ _ _ _ _ _ _ _ Hid Hname _ _ E) as Hsent.
  eexists. eexists. split; [|split; [|split]].
  - simpl. unfold puts_of. rewrite Hsent. reflexivity.
  - reflexivity.
  - intros ->. reflexivity.
  - intros ->. reflexivity.
Qed.

(** An instance, at the values of the scenarios. *)
Lemma update_substitutes_defaults_witness :
  exists sent payload,
    puts_of (snd (update_dns_record "z1" (JObj bare_fields) (JStr "8.8.8.8")
                    (build_headers "3f9c2d7e1b")
                    (sample_session (respond 200 "OK" (ip_body "8.8.8.8"))
                                    (respond 200 "OK" (listing [JObj bare_fields]))
                                    (respond 200 "OK" JNull))
                    10 []))
      = sent :: puts_of []
    /\ req_json sent = Some payload
    /\ getitem payload "ttl" = Returned (JInt 1)
    /\ getitem payload "proxied" = Returned (JBool false).
Proof.
  destruct (update_substitutes_defaults "z1" bare_fields (JStr "8.8.8.8")
              (build_headers "3f9c2d7e1b")
              (sample_session (respond 200 "OK" (ip_body "8.8.8.8"))
                              (respond 200 "OK" (listing [JObj bare_fields]))
                              (respond 200 "OK" JNull))
              10 [] (JStr "r1") (JStr "a.example.com") eq_refl eq_refl)
    as (sent & payload & H1 & H2 & H3 & H4).
  exists sent, payload. split; [exact H1|]. split; [exact H2|].
  split; [apply H3 | apply H4]; reflexivity.
Defined.

(** ** The update: what is returned *)

(** C6, as the specification states it, fails: a record dict without an
    ["id"] key makes [update_dns_record] raise [KeyError] before any call
    is made, so no boolean is returned. *)
Lemma update_dns_record_raises_without_id :
  let run := update_dns_record "z1"
               (JObj [("name", JStr "a.example.com"); ("content", JStr "1.2.3.4")])
               (JStr "8.8.8.8") (build_headers "3f9c2d7e1b")
               (sample_session (respond 200 "OK" (ip_body "8.8.8.8"))
                               (respond 200 "OK" (listing []))
                               (respond 200 "OK" JNull))
               10 [] in
  run = (Raised (mkException KeyError "'id'" None), [])
  /\ ~ exists b : bool, fst run = Returned b.
Proof.
  split; [reflexivity|]. intros [b H]. discriminate H.
Qed.

(** C6, amended.  For a record dict with an ["id"] and a ["name"] key, and a
    transport whose result for a [PUT] is digestible (a response, or a
    [RequestException]; the extraction of the provider's details from the
    error's response returns), [update_dns_record] returns a boolean after
    exactly one call: [True] exactly when the call returned a response whose
    status is outside 400..599 (so on every 2xx), [False] otherwise. *)
Theorem update_dns_record_returns_bool
    (zone : string) (d : list (string * json)) (new_ip : json)
    (headers : list (string * string)) (session : Session) (timeout : Z)
    (t : trace) (rid name : json) :
  Py.dict_lookup "id" d = Some rid ->
  Py.dict_lookup "name" d = Some name ->
  (forall r, req_method r = PUT -> digestible (session (requests_of t) r)) ->
  exists (b : bool) (sent : request) (t' : trace),
    update_dns_record zone (JObj d) new_ip headers session timeout t = (Returned b, t')
    /\ requests_of t' = sent :: requests_of t
    /\ req_method sent = PUT
    /\ (b = true <->
        exists response,
          session (requests_of t) sent = Respond response
          /\ ~ (400 <= status_code response < 600)).
Proof.
  intros Hid Hname Hdig.
  pose proof (update_dns_record_cases zone d new_ip headers session timeout t
                rid name Hid Hname) as Hcases.
  cbv zeta in Hcases.
  match type of Hcases with
  | _ = match session _ ?r with _ => _ end => set (sent := r) in *
  end.
  specialize (Hdig sent eq_refl). unfold digestible in Hdig.
  assert (Hhandler : forall e,
             (forall r, exc_response e = Some r ->
                        exists details, _extract_cloudflare_errors r = Returned details) ->
             exists t', bind (log_request_error "Error updating DNS record: " e)
                          (fun _ => ret false) (EvRequest sent :: t) = (Returned false, t')
                        /\ requests_of t' = sent :: requests_of t).
  { intros e He.
    destruct (log_request_error_returns "Error updating DNS record: " e
                (EvRequest sent :: t) He) as [message Hm].
    eexists. split.
    - rewrite (bind_returned _ _ _ _ _ Hm). reflexivity.
    - reflexivity. }
  destruct (session (requests_of t) sent) as [response|e] eqn:Es.
  - destruct (raise_for_status_cases response) as [[Hst Hr]|[Hst [message Hr]]];
      rewrite Hr in Hcases.
    + exists true, sent. eexists. split; [exact Hcases|].
      split; [reflexivity|]. split; [reflexivity|].
      split; [|reflexivity]. intros _. exists response. split; [exact Es|exact Hst].
    + destruct (Hhandler (mkException HTTPError message (Some response)))
        as (t' & Hrun & Hreq).
      { simpl. intros r [= <-]. exact (Hdig Hst). }
      exists false, sent, t'. split; [rewrite Hcases; exact Hrun|].
      split; [exact Hreq|]. split; [reflexivity|].
      split; [discriminate|]. intros (response' & Hs' & Hn).
      rewrite Es in Hs'. injection Hs' as <-. contradiction.
  - destruct Hdig as [Hclass Hextract]. rewrite Hclass in Hcases.
    destruct (Hhandler e Hextract) as (t' & Hrun & Hreq).
    exists false, sent, t'. split; [rewrite Hcases; exact Hrun|].
    split; [exact Hreq|]. split; [reflexivity|].
    split; [discriminate|]. intros (response' & Hs' & _).
    rewrite Es in Hs'. discriminate Hs'.
Qed.

(** An instance, at the values of the scenarios. *)
Lemma update_dns_record_returns_bool_witness :
  exists (b : bool) (sent : request) (t' : trace),
    update_dns_record "z1" sample_record (JStr "8.8.8.8") (build_headers "3f9c2d7e1b")
      (sample_session (respond 200 "OK" (ip_body "8.8.8.8"))
                      (respond 200 "OK" (listing [sample_record]))
                      (respond 400 "Bad Request"
                         (JObj [("errors",
                                 JList [JObj [("code", JInt 6003);
                                              ("message", JStr "Invalid request headers")]])])))
      10 [] = (Returned b, t')
    /\ requests_of t' = sent :: requests_of []
    /\ req_method sent = PUT
    /\ (b = true <->
        exists response,
          sample_session (respond 200 "OK" (ip_body "8.8.8.8"))
                         (respond 200 "OK" (listing [sample_record]))
                         (respond 400 "Bad Request"
                            (JObj [("errors",
                                    JList [JObj [("code", JInt 6003);
                                                 ("message", JStr "Invalid request headers")]])]))
            (requests_of []) sent = Respond response
          /\ ~ (400 <= status_code response < 600)).
Proof.
  apply (update_dns_record_returns_bool "z1" sample_fields (JStr "8.8.8.8")
           (build_headers "3f9c2d7e1b") _ 10 [] (JStr "r1") (JStr "a.example.com"));
    [reflexivity | reflexivity |].
  intros r Hr. unfold sample_session. rewrite Hr.
  simpl. intros _. eexists. reflexivity.
Defined.

(** ** The lookup *)

Section Lookup.

Variables (zone name : string) (headers : list (string * string))
          (session : Session) (timeout : Z) (t : trace).

(** The call [get_dns_record] makes. *)
Let sent : request :=
  mkRequest GET (CLOUDFLARE_API_BASE +:+ "/zones/" +:+ zone +:+ "/dns_records")
    (Some headers) (Some [("type", "A"); ("name", name)]) None timeout.

(** A listing that comes back with a status outside 400..599 and a JSON
    object with a list under ["result"]: the first entry, or [None]. *)
Lemma get_dns_record_listing (response : Response) (fields : list (string * json))
    (records : list json) :
  session (requests_of t) sent = Respond response ->
  ~ (400 <= status_code response < 600) ->
  body response = JsonValue (JObj fields) ->
  Py.dict_lookup "result" fields = Some (JList records) ->
  get_dns_record zone name headers session timeout t =
    (Returned (match records with first :: _ => first | [] => JNull end),
     EvRequest sent :: t).
Proof.
  intros Hs Hst Hbody Hres.
  unfold get_dns_record, try_except, bind, session_get, send, lift. fold sent.
  rewrite Hs, (raise_for_status_returned _ Hst).
  unfold Response_json. rewrite Hbody. simpl. rewrite Hres.
  destruct records; reflexivity.
Qed.


End Lookup.

(** C4.  When the listing answers with a 2xx status and a JSON object whose
    ["result"] is a list, [get_dns_record] returns the first entry of a
    non-empty list, whatever the later entries are, and [None] (the
    not-found outcome) for the empty list. *)
Theorem get_dns_record_first_match
    (zone name : string) (headers : list (string * string)) (session : Session)
    (timeout : Z) (t : trace) (response : Response)
    (fields : list (string * json)) (records : list json) :
  (forall r, req_method r = GET ->
             req_url r = CLOUDFLARE_API_BASE +:+ "/zones/" +:+ zone +:+ "/dns_records" ->
             session (requests_of t) r = Respond response) ->
  200 <= status_code response < 300 ->
  body response = JsonValue (JObj fields) ->
  Py.dict_lookup "result" fields = Some (JList records) ->
  fst (get_dns_record zone name headers session timeout t) =
    Returned (match records with
              | first :: _ => first
              | [] => JNull
              end).
Proof.
  intros Hs Hst Hbody Hres.
  rewrite (get_dns_record_listing zone name headers session timeout t
             response fields records);
    [reflexivity | apply Hs; reflexivity | lia | assumption..].
Qed.

(** An instance, at the values of the scenarios. *)
Lemma get_dns_record_first_match_witness :
  fst (get_dns_record "z1" "a.example.com" (build_headers "3f9c2d7e1b")
         (sample_session (respond 200 "OK" (ip_body "8.8.8.8"))
                         (respond 200 "OK" (listing [sample_record; JObj bare_fields]))
                         (respond 200 "OK" JNull))
         10 [EvRequest (mkRequest GET IPIFY_URL None None None 10)])
  = Returned sample_record.
Proof.
  apply (get_dns_record_first_match "z1" "a.example.com" (build_headers "3f9c2d7e1b")
           (sample_session (respond 200 "OK" (ip_body "8.8.8.8"))
                           (respond 200 "OK" (listing [sample_record; JObj bare_fields]))
                           (respond 200 "OK" JNull))
           10 [EvRequest (mkRequest GET IPIFY_URL None None None 10)]
           (mkResponse 200 "OK" "https://api.example"
              (JsonValue (listing [sample_record; JObj bare_fields])))
           [("result", JList [sample_record; JObj bare_fields])]
           [sample_record; JObj bare_fields]);
    [ | simpl; lia | reflexivity | reflexivity].
  intros r Hm Hu. unfold sample_session. rewrite Hm, Hu. reflexivity.
Defined.




(** ** The public-IP resolver *)

Section Resolver.

Variables (session : Session) (timeout : Z) (t : trace).

(** The call [get_current_ip] makes. *)
Let sent : request := mkRequest GET IPIFY_URL None None None timeout.

(** The service answers with a status outside 400..599 and a JSON object
    that has an ["ip"] entry: the entry is returned. *)
Lemma get_current_ip_answer (response : Response) (fields : list (string * json))
    (ip : json) :
  session (requests_of t) sent = Respond response ->
  ~ (400 <= status_code response < 600) ->
  body response = JsonValue (JObj fields) ->
  Py.dict_lookup "ip" fields = Some ip ->
  get_current_ip session timeout t = (Returned ip, EvRequest sent :: t).
Proof.
  intros Hs Hst Hbody Hip.
  unfold get_current_ip, try_except, bind, session_get, send, lift. fold sent.
  rewrite Hs, (raise_for_status_returned _ Hst).
  unfold Response_json. rewrite Hbody. simpl. rewrite Hip. reflexivity.
Qed.

(** The call raises a [RequestException]: [None], and one [ERROR] record. *)
Lemma get_current_ip_transport_failure (e : exception) :
  session (requests_of t) sent = Fail e ->
  is_RequestException (exc_type e) = true ->
  get_current_ip session timeout t =
    (Returned JNull,
     EvLog ERROR ("Error getting current IP: " +:+ exc_str e) :: EvRequest sent :: t).
Proof.
  intros Hs Hclass.
  unfold get_current_ip, try_except, bind, session_get, send, lift. fold sent.
  rewrite Hs, Hclass. reflexivity.
Qed.

(** The service answers with a status in 400..599: [None], and one [ERROR]
    record. *)
Lemma get_current_ip_http_error (response : Response) :
  session (requests_of t) sent = Respond response ->
  400 <= status_code response < 600 ->
  exists message,
    get_current_ip session timeout t =
      (Returned JNull,
       EvLog ERROR ("Error getting current IP: " +:+ message) :: EvRequest sent :: t).
Proof.
  intros Hs Hst.
  unfold get_current_ip, try_except, bind, session_get, send, lift. fold sent.
  rewrite Hs. destruct (raise_for_status_raised _ Hst) as [message Hr].
  rewrite Hr. exists message. reflexivity.
Qed.

(** The body is not JSON: [None] when the decoding error is a
    [RequestException] (requests 2.27 and later); otherwise the error leaves
    the function. *)
Lemma get_current_ip_malformed (response : Response) (c : exc_class) (msg : string) :
  session (requests_of t) sent = Respond response ->
  ~ (400 <= status_code response < 600) ->
  body response = JsonError c msg ->
  get_current_ip session timeout t =
    if is_RequestException c
    then (Returned JNull,
          EvLog ERROR ("Error getting current IP: " +:+ msg) :: EvRequest sent :: t)
    else (Raised (mkException c msg None), EvRequest sent :: t).
Proof.
  intros Hs Hst Hbody.
  unfold get_current_ip, try_except, bind, session_get, send, lift. fold sent.
  rewrite Hs, (raise_for_status_returned _ Hst).
  unfold Response_json. rewrite Hbody. simpl.
  destruct (is_RequestException c); reflexivity.
Qed.

(** The body is a JSON object without an ["ip"] entry: [KeyError] leaves the
    function, nothing is logged. *)
Lemma get_current_ip_missing_field (response : Response)
    (fields : list (string * json)) :
  session (requests_of t) sent = Respond response ->
  ~ (400 <= status_code response < 600) ->
  body response = JsonValue (JObj fields) ->
  Py.dict_lookup "ip" fields = None ->
  get_current_ip session timeout t =
    (Raised (mkException KeyError "'ip'" None), EvRequest sent :: t).
Proof.
  intros Hs Hst Hbody Hip.
  unfold get_current_ip, try_except, bind, session_get, send, lift. fold sent.
  rewrite Hs, (raise_for_status_returned _ Hst).
  unfold Response_json. rewrite Hbody. simpl. rewrite Hip. reflexivity.
Qed.

End Resolver.

(** C7.  The code departs from the claim when the IP-echo service answers
    200 with a JSON object that has no ["ip"] field: [get_current_ip] does
    not return [None], it raises [KeyError], and the exception goes through
    [main], which returns no exit code. *)
Theorem get_current_ip_raises_on_missing_ip_field :
  let session := sample_session (respond 200 "OK" (JObj []))
                                (respond 200 "OK" (listing [sample_record]))
                                (respond 200 "OK" JNull) in
  get_current_ip session REQUEST_TIMEOUT_SECONDS []
    = (Raised (mkException KeyError "'ip'" None),
       [EvRequest (mkRequest GET IPIFY_URL None None None 10)])
  /\ main sample_environ session []
    = (Raised (mkException KeyError "'ip'" None),
       [EvRequest (mkRequest GET IPIFY_URL None None None 10);
        EvLog INFO "Starting Cloudflare DDNS update process..."]).
Proof. split; reflexivity. Qed.

(** ** The extraction of the provider's error details *)

Section Extraction.

(** A body that is not JSON gives no details and no error. *)
Lemma extract_unparseable (response : Response) (c : exc_class) (msg : string) :
  body response = JsonError c msg ->
  is_ValueError c = true ->
  _extract_cloudflare_errors response = Returned EmptyString.
Proof.
  intros Hbody Hc. unfold _extract_cloudflare_errors, Response_json.
  rewrite Hbody. simpl. rewrite Hc. reflexivity.
Qed.

(** The first loop on well-formed provider errors. *)
Lemma extract_errors_loop_entries (entries : list (json * json)) (details : list json) :
  extract_errors_loop
    (map (fun e => JObj [("code", fst e); ("message", snd e)]) entries) details
  = Returned
      (details ++
       map (fun e => JStr ("code=" +:+ Py.str (fst e) +:+ " message=" +:+ Py.str (snd e)))
           entries).
Proof.
  revert details. induction entries as [|[code message] rest IH]; intros details.
  - simpl. rewrite app_nil_r. reflexivity.
  - simpl. rewrite IH, <- app_assoc. reflexivity.
Qed.

(** The second loop on free-text messages. *)
Lemma extract_messages_loop_texts (texts : list string) (details : list json) :
  extract_messages_loop (map JStr texts) details
  = Returned (details ++ map JStr texts).
Proof.
  revert details. induction texts as [|text rest IH]; intros details.
  - simpl. rewrite app_nil_r. reflexivity.
  - simpl. rewrite IH, <- app_assoc. reflexivity.
Qed.

Lemma strings_of_strs (i : nat) (l : list string) :
  strings_of i (map JStr l) = Returned l.
Proof.
  revert i. induction l as [|s l IH]; intros i; simpl; [reflexivity|].
  rewrite IH. reflexivity.
Qed.

(** On a body of the provider's shape, a JSON object with a list of
    [{code, message}] entries under ["errors"] and a list of strings under
    ["messages"] (either may be absent), the extraction returns one
    ["code=<code> message=<message>"] item per error, then the messages,
    joined by ["; "]. *)
Lemma extract_provider_shape (response : Response) (fields : list (string * json))
    (entries : list (json * json)) (texts : list string) :
  body response = JsonValue (JObj fields) ->
  default (JList []) (Py.dict_lookup "errors" fields)
    = JList (map (fun e => JObj [("code", fst e); ("message", snd e)]) entries) ->
  default (JList []) (Py.dict_lookup "messages" fields) = JList (map JStr texts) ->
  _extract_cloudflare_errors response =
    Returned
      (Py.join "; "
         (map (fun e => "code=" +:+ Py.str (fst e) +:+ " message=" +:+ Py.str (snd e))
              entries ++ texts)).
Proof.
  intros Hbody Herrors Hmessages.
  unfold _extract_cloudflare_errors, Response_json. rewrite Hbody.
  unfold get.
  assert (He : match Py.dict_lookup "errors" fields with
               | Some x => Returned x | None => Returned (JList []) end
               = Returned (default (JList []) (Py.dict_lookup "errors" fields)))
    by (destruct (Py.dict_lookup "errors" fields); reflexivity).
  assert (Hm : match Py.dict_lookup "messages" fields with
               | Some x => Returned x | None => Returned (JList []) end
               = Returned (default (JList []) (Py.dict_lookup "messages" fields)))
    by (destruct (Py.dict_lookup "messages" fields); reflexivity).
  rewrite He, Hm, Herrors, Hmessages. cbn [rbind iterate].
  rewrite extract_errors_loop_entries. cbn [rbind app].
  rewrite extract_messages_loop_texts. cbn [rbind].
  unfold join_items.
  rewrite <- (map_map (fun e => "code=" +:+ Py.str (fst e) +:+ " message=" +:+ Py.str (snd e))
                JStr entries).
  rewrite <- map_app, strings_of_strs. reflexivity.
Qed.

(** The scenario of the specification: the details of the rejected update. *)
Lemma extract_scenario :
  _extract_cloudflare_errors
    (mkResponse 400 "Bad Request" "https://api.example"
       (JsonValue (JObj [("errors",
                          JList [JObj [("code", JInt 6003);
                                       ("message", JStr "Invalid request headers")]])])))
  = Returned "code=6003 message=Invalid request headers".
Proof. reflexivity. Qed.

End Extraction.

(** C9.  The code departs from the claim on an HTTP error response whose
    ["errors"] list holds an item that is not an object (here a plain
    string): the first loop calls [item.get] on it without the [isinstance]
    test the second loop has, so the extraction raises [AttributeError]
    instead of returning a string, and the exception goes through the
    [except] branch of [update_dns_record]. *)
Theorem extract_raises_on_error_item_that_is_no_object :
  let rejected :=
    mkResponse 400 "Bad Request" "https://api.example"
      (JsonValue (JObj [("errors", JList [JStr "Invalid request headers"])])) in
  _extract_cloudflare_errors rejected
    = Raised (mkException AttributeError "'str' object has no attribute 'get'" None)
  /\ fst (update_dns_record "z1" sample_record (JStr "8.8.8.8")
            (build_headers "3f9c2d7e1b")
            (sample_session (respond 200 "OK" (ip_body "8.8.8.8"))
                            (respond 200 "OK" (listing [sample_record]))
                            (Respond rejected))
            REQUEST_TIMEOUT_SECONDS [])
    = Raised (mkException AttributeError "'str' object has no attribute 'get'" None).
Proof. split; reflexivity. Qed.

(** ** The configuration: the invariant *)



(** ** The orchestrator *)

Section Orchestrator.

Variables (environ : gmap string string) (requests : Session) (t : trace).

(** The loader never raises. *)
Lemma load_config_returns :
  exists config t0, load_config_from_env environ t = (Returned config, t0).
Proof.
  unfold load_config_from_env.
  destruct (environ_get_stripped environ "CLOUDFLARE_API_TOKEN");
    destruct (environ_get_stripped environ "CLOUDFLARE_ZONE_ID");
    destruct (environ_get_stripped environ "CLOUDFLARE_RECORD_NAME");
    cbn [Py.str_truthy negb app]; try (eexists; eexists; reflexivity).
  match goal with |- context [if ?c then _ else _] => destruct c end;
    eexists; eexists; reflexivity.
Qed.

(** Step 1 fails: exit code 1, nothing else is done. *)
Lemma main_config_failure (t0 : trace) :
  load_config_from_env environ t = (Returned None, t0) ->
  main environ requests t = (Returned 1, t0).
Proof.
  intros H. unfold main. rewrite (bind_returned _ _ _ _ _ H). reflexivity.
Qed.

(** Step 2 raises: the exception leaves [main]. *)
Lemma main_resolver_raises (config : Config) (t0 t1 : trace) (e : exception) :
  load_config_from_env environ t = (Returned (Some config), t0) ->
  get_current_ip requests REQUEST_TIMEOUT_SECONDS (at_resolve t0) = (Raised e, t1) ->
  main environ requests t = (Raised e, t1).
Proof.
  intros H0 H1. unfold at_resolve in H1.
  unfold main. rewrite (bind_returned _ _ _ _ _ H0).
  unfold bind, logging_info. rewrite H1. reflexivity.
Qed.

(** Step 2 returns [None] or another false value: exit code 1, and no call
    after the resolver's. *)
Lemma main_resolver_failure (config : Config) (t0 t1 : trace) (current_ip : json) :
  load_config_from_env environ t = (Returned (Some config), t0) ->
  get_current_ip requests REQUEST_TIMEOUT_SECONDS (at_resolve t0)
    = (Returned current_ip, t1) ->
  Py.truthy current_ip = false ->
  main environ requests t =
    (Returned 1,
     EvLog ERROR "Could not determine current public IP. Exiting." :: t1).
Proof.
  intros H0 H1 Hfalse. unfold at_resolve in H1.
  unfold main. rewrite (bind_returned _ _ _ _ _ H0).
  unfold bind, logging_info. rewrite H1, Hfalse. reflexivity.
Qed.

(** Step 3 raises: the exception leaves [main]. *)
Lemma main_lookup_raises (config : Config) (t0 t1 t2 : trace) (current_ip : json)
    (e : exception) :
  load_config_from_env environ t = (Returned (Some config), t0) ->
  get_current_ip requests REQUEST_TIMEOUT_SECONDS (at_resolve t0)
    = (Returned current_ip, t1) ->
  Py.truthy current_ip = true ->
  get_dns_record (zone_id config) (record_name config)
    (build_headers (api_token config)) requests REQUEST_TIMEOUT_SECONDS
    (at_lookup current_ip t1) = (Raised e, t2) ->
  main environ requests t = (Raised e, t2).
Proof.
  intros H0 H1 Htrue H2. unfold at_resolve in H1. unfold at_lookup in H2.
  unfold main. rewrite (bind_returned _ _ _ _ _ H0).
  unfold bind, logging_info. rewrite H1, Htrue. cbn [negb]. rewrite H2.
  reflexivity.
Qed.

(** Step 3 returns [None] or another false value: exit code 1, and no call
    after the lookup's. *)
Lemma main_lookup_failure (config : Config) (t0 t1 t2 : trace)
    (current_ip dns_record : json) :
  load_config_from_env environ t = (Returned (Some config), t0) ->
  get_current_ip requests REQUEST_TIMEOUT_SECONDS (at_resolve t0)
    = (Returned current_ip, t1) ->
  Py.truthy current_ip = true ->
  get_dns_record (zone_id config) (record_name config)
    (build_headers (api_token config)) requests REQUEST_TIMEOUT_SECONDS
    (at_lookup current_ip t1) = (Returned dns_record, t2) ->
  Py.truthy dns_record = false ->
  main environ requests t =
    (Returned 1,
     EvLog ERROR ("DNS record for " +:+ record_name config
       +:+ " not found. Please create it manually in Cloudflare first. Exiting.")
       :: t2).
Proof.
  intros H0 H1 Htrue H2 Hfalse. unfold at_resolve in H1. unfold at_lookup in H2.
  unfold main. rewrite (bind_returned _ _ _ _ _ H0).
  unfold bind, logging_info. rewrite H1, Htrue. cbn [negb]. rewrite H2, Hfalse.
  reflexivity.
Qed.

(** The record has no ["content"]: the exception leaves [main]. *)
Lemma main_content_raises (config : Config) (t0 t1 t2 : trace)
    (current_ip dns_record : json) (e : exception) :
  load_config_from_env environ t = (Returned (Some config), t0) ->
  get_current_ip requests REQUEST_TIMEOUT_SECONDS (at_resolve t0)
    = (Returned current_ip, t1) ->
  Py.truthy current_ip = true ->
  get_dns_record (zone_id config) (record_name config)
    (build_headers (api_token config)) requests REQUEST_TIMEOUT_SECONDS
    (at_lookup current_ip t1) = (Returned dns_record, t2) ->
  Py.truthy dns_record = true ->
  getitem dns_record "content" = Raised e ->
  main environ requests t = (Raised e, t2).
Proof.
  intros H0 H1 Htrue H2 Htrue2 H3. unfold at_resolve in H1. unfold at_lookup in H2.
  unfold main. rewrite (bind_returned _ _ _ _ _ H0).
  unfold bind, logging_info, lift. rewrite H1, Htrue. cbn [negb].
  rewrite H2, Htrue2. cbn [negb]. rewrite H3. reflexivity.
Qed.

(** From the comparison on: a match ends the run with exit code 0 and two
    log records; a mismatch calls the update once, and the exit code is 0 if
    it returns [True], 1 if it returns [False]. *)
Lemma main_from_comparison (config : Config) (current_ip dns_record existing_ip : json)
    (t2 : trace) :
  reaches_comparison environ requests t config current_ip dns_record existing_ip t2 ->
  main environ requests t =
    if Py.eq current_ip existing_ip then
      (Returned 0,
       EvLog INFO "Cloudflare DDNS update process finished."
         :: EvLog INFO "Current IP matches existing DNS record. No update needed."
         :: at_compare config existing_ip t2)
    else
      match update_dns_record (zone_id config) dns_record current_ip
              (build_headers (api_token config)) requests REQUEST_TIMEOUT_SECONDS
              (at_update config current_ip existing_ip t2) with
      | (Returned true, t4) =>
          (Returned 0,
           EvLog INFO "Cloudflare DDNS update process finished."
             :: EvLog INFO "DDNS update successful." :: t4)
      | (Returned false, t4) => (Returned 1, EvLog ERROR "DDNS update failed." :: t4)
      | (Raised e, t4) => (Raised e, t4)
      end.
Proof.
  intros (t0 & t1 & H0 & H1 & Htrue & H2 & Htrue2 & H3).
  unfold at_resolve in H1. unfold at_lookup in H2.
  unfold main. rewrite (bind_returned _ _ _ _ _ H0).
  unfold bind, logging_info, lift. rewrite H1, Htrue. cbn [negb].
  rewrite H2, Htrue2. cbn [negb]. rewrite H3.
  destruct (Py.eq current_ip existing_ip); [reflexivity|].
  unfold at_update, at_compare.
  destruct (update_dns_record _ _ _ _ _ _ _) as [[[|]|e] t4]; reflexivity.
Qed.


(** What reaches the comparison is determined by the run. *)
Lemma reaches_comparison_unique
    (config config' : Config) (ip ip' record record' existing existing' : json)
    (t2 t2' : trace) :
  reaches_comparison environ requests t config ip record existing t2 ->
  reaches_comparison environ requests t config' ip' record' existing' t2' ->
  config = config' /\ ip = ip' /\ record = record' /\ existing = existing' /\ t2 = t2'.
Proof.
  intros (t0 & t1 & H0 & H1 & _ & H2 & _ & H3)
         (t0' & t1' & H0' & H1' & _ & H2' & _ & H3').
  rewrite H0 in H0'. injection H0' as <- <-.
  rewrite H1 in H1'. injection H1' as <- <-.
  rewrite H2 in H2'. injection H2' as <- <-.
  rewrite H3 in H3'. injection H3' as <-.
  repeat split; reflexivity.
Qed.

(** No [PUT] is issued before the comparison. *)
Lemma reaches_comparison_no_put (config : Config) (ip record existing : json)
    (t2 : trace) :
  reaches_comparison environ requests t config ip record existing t2 ->
  puts_of t2 = puts_of t.
Proof.
  intros (t0 & t1 & H0 & H1 & _ & H2 & _ & _).
  rewrite (no_put_get_dns_record _ _ _ _ _ _ _ _ H2). unfold at_lookup.
  rewrite puts_of_log, (no_put_get_current_ip _ _ _ _ _ H1). unfold at_resolve.
  rewrite puts_of_log. exact (no_put_load_config _ _ _ _ H0).
Qed.

End Orchestrator.

(** ** The orchestrator: idempotence and exit codes *)

(** C1.  In every run that reaches the comparison with a resolved address
    that is string-equal to the content of the looked-up record, [main]
    returns exit code 0, and the run issues no [PUT]; no call at all is made
    after the lookup. *)
Theorem ip_match_is_noop
    (environ : gmap string string) (requests : Session) (t : trace)
    (config : Config) (ip : string) (dns_record : json) (t2 : trace) :
  reaches_comparison environ requests t config (JStr ip) dns_record (JStr ip) t2 ->
  exists t',
    main environ requests t = (Returned 0, t')
    /\ puts_of t' = puts_of t
    /\ requests_of t' = requests_of t2.
Proof.
  intros Hreach.
  rewrite (main_from_comparison _ _ _ _ _ _ _ _ Hreach).
  cbn [Py.eq]. rewrite String.eqb_refl.
  eexists. split; [reflexivity|]. split; [|reflexivity].
  unfold at_compare. rewrite !puts_of_log.
  exact (reaches_comparison_no_put _ _ _ _ _ _ _ _ Hreach).
Qed.

(** An instance, at the values of the scenarios. *)
Lemma ip_match_is_noop_witness :
  exists t',
    main sample_environ
      (sample_session (respond 200 "OK" (ip_body "1.2.3.4"))
                      (respond 200 "OK" (listing [sample_record]))
                      (Fail network_error))
      [] = (Returned 0, t')
    /\ puts_of t' = puts_of []
    /\ requests_of t' =
       requests_of
         [EvRequest (mkRequest GET
                       (CLOUDFLARE_API_BASE +:+ "/zones/z1/dns_records")
                       (Some (build_headers "3f9c2d7e1b"))
                       (Some [("type", "A"); ("name", "a.example.com")]) None 10);
          EvLog INFO "Current public IP: 1.2.3.4";
          EvRequest (mkRequest GET IPIFY_URL None None None 10);
          EvLog INFO "Starting Cloudflare DDNS update process..."].
Proof.
  apply (ip_match_is_noop sample_environ _ [] sample_config "1.2.3.4" sample_record).
  exists [],
    [EvRequest (mkRequest GET IPIFY_URL None None None 10);
     EvLog INFO "Starting Cloudflare DDNS update process..."].
  repeat split; reflexivity.
Defined.



(** ** The orchestrator: a mismatch *)

(** When the run reaches the comparison with addresses that differ, and the
    looked-up record carries an identifier, a name, a TTL and a proxy flag,
    the run issues exactly one [PUT]; its payload has the resolved address
    as content and the record's own name, TTL and proxy flag. *)
Lemma main_mismatch_sends_update
    (environ : gmap string string) (requests : Session) (t : trace)
    (config : Config) (ip existing : json) (d : list (string * json)) (t2 : trace)
    (rid name ttl proxied : json) :
  reaches_comparison environ requests t config ip (JObj d) existing t2 ->
  Py.eq ip existing = false ->
  Py.dict_lookup "id" d = Some rid ->
  Py.dict_lookup "name" d = Some name ->
  Py.dict_lookup "ttl" d = Some ttl ->
  Py.dict_lookup "proxied" d = Some proxied ->
  exists sent,
    puts_of (snd (main environ requests t)) = sent :: puts_of t
    /\ req_json sent = Some (JObj [("type", JStr "A");
                                  ("name", name);
                                  ("content", ip);
                                  ("ttl", ttl);
                                  ("proxied", proxied)]).
Proof.
  intros Hreach Hne Hid Hname Httl Hproxied.
  rewrite (main_from_comparison _ _ _ _ _ _ _ _ Hreach), Hne.
  destruct (update_dns_record (zone_id config) (JObj d) ip
              (build_headers (api_token config)) requests REQUEST_TIMEOUT_SECONDS
              (at_update config ip existing t2)) as [r t4] eqn:E.
  pose proof (update_dns_record_sends _ _ _ _ _ _ _ _ _ Hid Hname _ _ E) as Hsent.
  match type of Hsent with
  | _ = ?r :: _ => set (sent := r) in *
  end.
  assert (Hputs : puts_of t4 = sent :: puts_of t).
  { unfold puts_of at 1. rewrite Hsent. cbn [List.filter req_method sent].
    f_equal. fold (puts_of (at_update config ip existing t2)).
    unfold at_update, at_compare. rewrite !puts_of_log.
    exact (reaches_comparison_no_put _ _ _ _ _ _ _ _ Hreach). }
  exists sent. split.
  - destruct r as [[|]|e]; cbn [snd]; rewrite ?puts_of_log; exact Hputs.
  - simpl. rewrite Httl, Hproxied. reflexivity.
Qed.

(** ** The end-to-end scenarios of the specification *)

(** Match: no update call, exit code 0. *)
Example scenario_match :
  let run := main sample_environ
               (sample_session (respond 200 "OK" (ip_body "1.2.3.4"))
                               (respond 200 "OK" (listing [sample_record]))
                               (respond 200 "OK" JNull)) [] in
  fst run = Returned 0 /\ puts_of (snd run) = [].
Proof. split; reflexivity. Qed.

(** Mismatch: one update call with the preserved fields, exit code 0. *)
Example scenario_mismatch :
  let run := main sample_environ
               (sample_session (respond 200 "OK" (ip_body "8.8.8.8"))
                               (respond 200 "OK" (listing [sample_record]))
                               (respond 200 "OK" JNull)) [] in
  fst run = Returned 0
  /\ map req_json (puts_of (snd run))
     = [Some (JObj [("type", JStr "A");
                    ("name", JStr "a.example.com");
                    ("content", JStr "8.8.8.8");
                    ("ttl", JInt 300);
                    ("proxied", JBool true)])].
Proof. split; reflexivity. Qed.

(** Update rejected: the log holds the provider's code and message, exit
    code 1. *)
Example scenario_update_rejected :
  let run := main sample_environ
               (sample_session
                  (respond 200 "OK" (ip_body "8.8.8.8"))
                  (respond 200 "OK" (listing [sample_record]))
                  (respond 400 "Bad Request"
                     (JObj [("errors",
                             JList [JObj [("code", JInt 6003);
                                          ("message", JStr "Invalid request headers")]])])))
               [] in
  fst run = Returned 1
  /\ In (EvLog ERROR
           ("Error updating DNS record: 400 Client Error: Bad Request for url: "
              +:+ "https://api.example (code=6003 message=Invalid request headers)"))
        (snd run).
Proof. split; [reflexivity|]. simpl. right. left. reflexivity. Qed.

(** Missing configuration: exit code 1 before any call. *)
Example scenario_missing_config :
  let run := main (delete "CLOUDFLARE_API_TOKEN" sample_environ)
               (sample_session (respond 200 "OK" (ip_body "8.8.8.8"))
                               (respond 200 "OK" (listing [sample_record]))
                               (respond 200 "OK" JNull)) [] in
  fst run = Returned 1 /\ requests_of (snd run) = [].
Proof. split; reflexivity. Qed.

(** No record: exit code 1, no update call. *)
Example scenario_not_found :
  let run := main sample_environ
               (sample_session (respond 200 "OK" (ip_body "8.8.8.8"))
                               (respond 200 "OK" (listing []))
                               (respond 200 "OK" JNull)) [] in
  fst run = Returned 1 /\ puts_of (snd run) = [].
Proof. split; reflexivity. Qed.

(** The resolver fails: exit code 1 after its single call. *)
Example scenario_resolver_failure :
  let run := main sample_environ
               (sample_session (Fail network_error)
                               (respond 200 "OK" (listing [sample_record]))
                               (respond 200 "OK" JNull)) [] in
  fst run = Returned 1
  /\ requests_of (snd run) = [mkRequest GET IPIFY_URL None None None 10].
Proof. split; reflexivity. Qed.

(* ===================================================================== *)
(** * Further properties of the code *)
(* ===================================================================== *)

(** ** Calls issued, step by step *)

Section Silence.

Context {A B : Type}.

Lemma silent_ret (a : A) : silent (ret a).
Proof. intros t r t' [= _ ->]. reflexivity. Qed.

Lemma silent_lift (x : result A) : silent (lift x).
Proof. intros t r t' [= _ ->]. reflexivity. Qed.

Lemma silent_bind (m : M A) (k : A -> M B) :
  silent m -> (forall a, silent (k a)) -> silent (bind m k).
Proof.
  intros Hm Hk t r t'. unfold bind.
  destruct (m t) as [[a|e] t1] eqn:E.
  - intros H. rewrite (Hk a _ _ _ H). exact (Hm _ _ _ E).
  - intros [= _ <-]. exact (Hm _ _ _ E).
Qed.

(** A [try] block that starts with one call and is silent after it, with a
    silent handler, issues exactly that call. *)
Lemma one_call_try (session : Session) (sent : request) (k : Response -> M A)
    (catches : exc_class -> bool) (handler : exception -> M A)
    (t : trace) (r : result A) (t' : trace) :
  (forall response, silent (k response)) ->
  (forall e, silent (handler e)) ->
  try_except (bind (send session sent) k) catches handler t = (r, t') ->
  requests_of t' = sent :: requests_of t.
Proof.
  intros Hk Hh. unfold try_except, bind, send.
  destruct (session (requests_of t) sent) as [response|e].
  - destruct (k response (EvRequest sent :: t)) as [[a|e] t1] eqn:E.
    + intros [= _ <-]. exact (Hk _ _ _ _ E).
    + destruct (catches (exc_type e)).
      * intros H. rewrite (Hh _ _ _ _ H). exact (Hk _ _ _ _ E).
      * intros [= _ <-]. exact (Hk _ _ _ _ E).
  - destruct (catches (exc_type e)).
    + intros H. rewrite (Hh _ _ _ _ H). reflexivity.
    + intros [= _ <-]. reflexivity.
Qed.

End Silence.

Lemma silent_logging_info (message : string) : silent (logging_info message).
Proof. intros t r t' [= _ <-]. reflexivity. Qed.

Lemma silent_logging_error (message : string) : silent (logging_error message).
Proof. intros t r t' [= _ <-]. reflexivity. Qed.

Create HintDb silent.

#[local] Hint Resolve silent_ret silent_lift silent_logging_info
  silent_logging_error : silent.

Ltac silent :=
  repeat first
    [ apply silent_bind; [|intros ?]
    | solve [auto with silent]
    | match goal with
      | |- silent (if ?c then _ else _) => destruct c
      | |- silent (match ?x with _ => _ end) => destruct x
      end ].

Lemma silent_log_request_error (what : string) (error : exception) :
  silent (log_request_error what error).
Proof. unfold log_request_error. silent. Qed.

Lemma silent_load_config (environ : gmap string string) :
  silent (load_config_from_env environ).
Proof. unfold load_config_from_env. silent. Qed.

(** The resolver issues exactly one call. *)
Lemma get_current_ip_one_call (session : Session) (timeout : Z) (t : trace)
    (r : result json) (t' : trace) :
  get_current_ip session timeout t = (r, t') ->
  requests_of t' = mkRequest GET IPIFY_URL None None None timeout :: requests_of t.
Proof.
  unfold get_current_ip, session_get. apply one_call_try; intros; silent.
Qed.

(** The lookup issues exactly one call. *)
Lemma get_dns_record_one_call (zone name : string) (headers : list (string * string))
    (session : Session) (timeout : Z) (t : trace) (r : result json) (t' : trace) :
  get_dns_record zone name headers session timeout t = (r, t') ->
  requests_of t' =
    mkRequest GET (CLOUDFLARE_API_BASE +:+ "/zones/" +:+ zone +:+ "/dns_records")
      (Some headers) (Some [("type", "A"); ("name", name)]) None timeout
    :: requests_of t.
Proof.
  unfold get_dns_record, session_get.
  pose proof silent_log_request_error.
  apply one_call_try; intros; silent.
Qed.

(** The update stops before any call, leaving the trace as it was, when the
    record cannot be read; otherwise it issues exactly one [PUT]. *)
Lemma update_dns_record_calls (zone : string) (record new_ip : json)
    (headers : list (string * string)) (session : Session) (timeout : Z)
    (t : trace) (r : result bool) (t' : trace) :
  update_dns_record zone record new_ip headers session timeout t = (r, t') ->
  (t' = t /\ exists e, r = Raised e
                       /\ (getitem record "id" = Raised e
                           \/ getitem record "name" = Raised e))
  \/ (exists fields rid name,
        record = JObj fields
        /\ Py.dict_lookup "id" fields = Some rid
        /\ Py.dict_lookup "name" fields = Some name
        /\ requests_of t' =
             mkRequest PUT
               (CLOUDFLARE_API_BASE +:+ "/zones/" +:+ zone +:+ "/dns_records/"
                  +:+ Py.str rid)
               (Some headers) None
               (Some (JObj [("type", JStr "A");
                            ("name", name);
                            ("content", new_ip);
                            ("ttl", default (JInt 1) (Py.dict_lookup "ttl" fields));
                            ("proxied",
                             default (JBool false) (Py.dict_lookup "proxied" fields))]))
               timeout
             :: requests_of t).
Proof.
  intros Hrun.
  destruct record as [| | | |l|fields];
    try (left; revert Hrun; unfold update_dns_record, bind, lift; cbn;
         intros [= <- <-]; split; [reflexivity|]; eexists; split;
         [reflexivity | left; reflexivity]).
  destruct (Py.dict_lookup "id" fields) as [rid|] eqn:Hid.
  2: { left. revert Hrun. unfold update_dns_record, bind, lift, getitem.
       rewrite Hid. intros [= <- <-]. split; [reflexivity|]. eexists.
       split; [reflexivity | left; reflexivity]. }
  destruct (Py.dict_lookup "name" fields) as [name|] eqn:Hname.
  2: { left. revert Hrun. unfold update_dns_record, bind, lift, getitem.
       rewrite Hid, Hname. intros [= <- <-]. split; [reflexivity|]. eexists.
       split; [reflexivity | right; reflexivity]. }
  right. exists fields, rid, name.
  split; [reflexivity|]. split; [exact Hid|]. split; [exact Hname|].
  exact (update_dns_record_sends _ _ _ _ _ _ _ _ _ Hid Hname _ _ Hrun).
Qed.

(** ** The configuration loader, in full *)

Section Loader.

Lemma startswith_append (p q : string) : Py.startswith p (p +:+ q) = true.
Proof.
  induction p as [|c p IH]; [destruct q; reflexivity|].
  rewrite append_cons. cbn [Py.startswith]. rewrite Ascii.eqb_refl. exact IH.
Qed.

Lemma contains_cons (sub : string) (c : ascii) (s : string) :
  Py.contains sub s = true -> Py.contains sub (String c s) = true.
Proof. intros H. cbn [Py.contains]. rewrite H. apply orb_true_r. Qed.

(** A string contains each of its pieces. *)
Lemma contains_infix (sub p q : string) : Py.contains sub (p +:+ sub +:+ q) = true.
Proof.
  induction p as [|c p IH].
  - change (EmptyString +:+ sub +:+ q) with (sub +:+ q).
    destruct (sub +:+ q) eqn:E; cbn [Py.contains];
      rewrite <- E, startswith_append; reflexivity.
  - rewrite append_cons. apply contains_cons. exact IH.
Qed.

Lemma upper_append (a b : string) : Py.upper (a +:+ b) = Py.upper a +:+ Py.upper b.
Proof.
  induction a as [|c a IH]; [reflexivity|].
  rewrite append_cons. cbn [Py.upper]. rewrite IH. reflexivity.
Qed.

(** A string holds a word in any casing: its upper-case form contains the
    upper-case word. *)
Lemma contains_upper_infix (word p x q : string) :
  Py.upper x = word -> Py.contains word (Py.upper (p +:+ x +:+ q)) = true.
Proof.
  intros <-. rewrite !upper_append. apply contains_infix.
Qed.

Variables (environ : gmap string string) (t : trace).

(** The whole of the loader: the variables whose stripped value is empty
    are reported together; with none missing, a token that looks like a
    placeholder is reported; otherwise the configuration is returned and
    nothing is logged. *)
Lemma load_config_cases :
  load_config_from_env environ t =
  match List.filter (fun name => negb (Py.str_truthy (environ_get_stripped environ name)))
                    required_variables with
  | first :: rest =>
      (Returned None,
       EvLog ERROR ("Missing required environment variable(s): "
                      +:+ Py.join ", " (first :: rest)) :: t)
  | [] =>
      if looks_like_placeholder (environ_get_stripped environ "CLOUDFLARE_API_TOKEN")
      then
        (Returned None,
         EvLog ERROR
           "CLOUDFLARE_API_TOKEN looks like a placeholder value. Set a real API token in .env."
           :: t)
      else
        (Returned
           (Some (mkConfig (environ_get_stripped environ "CLOUDFLARE_API_TOKEN")
                           (environ_get_stripped environ "CLOUDFLARE_ZONE_ID")
                           (environ_get_stripped environ "CLOUDFLARE_RECORD_NAME"))),
         t)
  end.
Proof.
  unfold load_config_from_env, required_variables, looks_like_placeholder.
  cbn [List.filter].
  destruct (Py.str_truthy (environ_get_stripped environ "CLOUDFLARE_API_TOKEN"));
    destruct (Py.str_truthy (environ_get_stripped environ "CLOUDFLARE_ZONE_ID"));
    destruct (Py.str_truthy (environ_get_stripped environ "CLOUDFLARE_RECORD_NAME"));
    cbn [negb app]; try reflexivity.
  match goal with |- context [if ?c then _ else _] => destruct c end; reflexivity.
Qed.

End Loader.




(** X3.  With the three variables set, a token that holds the word "token"
    and the word "your" or "cloudflare", each in any casing, is refused: the
    loader returns [None] and logs the placeholder error. *)
Theorem load_config_refuses_placeholder_in_any_casing
    (environ : gmap string string) (t : trace)
    (p1 x q1 p2 y q2 : string) :
  environ_get_stripped environ "CLOUDFLARE_API_TOKEN" = p1 +:+ x +:+ q1 ->
  Py.upper x = "TOKEN" ->
  environ_get_stripped environ "CLOUDFLARE_API_TOKEN" = p2 +:+ y +:+ q2 ->
  Py.upper y = "YOUR" \/ Py.upper y = "CLOUDFLARE" ->
  environ_get_stripped environ "CLOUDFLARE_ZONE_ID" <> EmptyString ->
  environ_get_stripped environ "CLOUDFLARE_RECORD_NAME" <> EmptyString ->
  load_config_from_env environ t =
    (Returned None,
     EvLog ERROR
       "CLOUDFLARE_API_TOKEN looks like a placeholder value. Set a real API token in .env."
       :: t).
Proof.
  intros Htoken Hx Hyour Hy Hzone Hname.
  assert (Hne : environ_get_stripped environ "CLOUDFLARE_API_TOKEN" <> EmptyString).
  { rewrite Htoken. destruct x; [discriminate Hx|].
    destruct p1; discriminate. }
  assert (Hp : looks_like_placeholder
                 (environ_get_stripped environ "CLOUDFLARE_API_TOKEN") = true).
  { unfold looks_like_placeholder. cbv zeta. apply andb_true_intro. split.
    - rewrite Htoken. apply contains_upper_infix. exact Hx.
    - rewrite Hyour. apply orb_true_intro.
      destruct Hy as [Hy|Hy]; [left|right]; apply contains_upper_infix; exact Hy. }
  rewrite load_config_cases. unfold required_variables. cbn [List.filter].
  apply str_truthy_nonempty in Hne, Hzone, Hname.
  rewrite Hne, Hzone, Hname, Hp. reflexivity.
Qed.

(** An instance: the token of a sample [.env] file. *)
Lemma load_config_refuses_placeholder_in_any_casing_witness :
  load_config_from_env
    (<["CLOUDFLARE_API_TOKEN" := "Your_Api_Token_here"]> sample_environ) []
  = (Returned None,
     [EvLog ERROR
        "CLOUDFLARE_API_TOKEN looks like a placeholder value. Set a real API token in .env."]).
Proof.
  apply (load_config_refuses_placeholder_in_any_casing
           (<["CLOUDFLARE_API_TOKEN" := "Your_Api_Token_here"]> sample_environ) []
           "Your_Api_" "Token" "_here" "" "Your" "_Api_Token_here");
    try reflexivity; [left; reflexivity | discriminate | discriminate].
Defined.

(** ** The extraction of error details, beyond the provider's shape *)

Section ExtractionEdges.

(** The first loop on items that are objects: an absent ["code"] reads as
    "unknown", an absent ["message"] as "unknown error". *)
Lemma extract_errors_loop_objects (items : list (list (string * json)))
    (details : list json) :
  extract_errors_loop (map JObj items) details
  = Returned
      (details ++
       map (fun item =>
              JStr ("code=" +:+ Py.str (default (JStr "unknown") (Py.dict_lookup "code" item))
                      +:+ " message="
                      +:+ Py.str (default (JStr "unknown error")
                                    (Py.dict_lookup "message" item))))
           items).
Proof.
  revert details. induction items as [|item rest IH]; intros details.
  - simpl. rewrite app_nil_r. reflexivity.
  - cbn [map extract_errors_loop get rbind].
    destruct (Py.dict_lookup "code" item); destruct (Py.dict_lookup "message" item);
      cbn [rbind default]; rewrite IH, <- app_assoc; reflexivity.
Qed.

(** The second loop never raises: it only adds items. *)
Lemma extract_messages_loop_returns (items details : list json) :
  exists added, extract_messages_loop items details = Returned (details ++ added).
Proof.
  revert details. induction items as [|message rest IH]; intros details.
  - exists []. simpl. rewrite app_nil_r. reflexivity.
  - assert (Hstep : forall x, exists added,
               extract_messages_loop rest (details ++ [x]) = Returned (details ++ added)).
    { intros x. destruct (IH (details ++ [x])) as [added Ha].
      exists (x :: added). rewrite Ha, <- app_assoc. reflexivity. }
    destruct message as [| | | | |m]; cbn [extract_messages_loop]; try apply Hstep.
    cbn [get]. destruct (Py.dict_lookup "message" m); cbn [rbind]; apply Hstep.
Qed.

(** The second loop on dict messages: the ["message"] entry, or the printed
    dict when there is none. *)
Lemma extract_messages_loop_dicts (ms : list (list (string * json)))
    (texts : list string) (details : list json) :
  Forall2 (fun m text =>
             Py.dict_lookup "message" m = Some (JStr text)
             \/ (Py.dict_lookup "message" m = None /\ text = Py.str (JObj m)))
          ms texts ->
  extract_messages_loop (map JObj ms) details = Returned (details ++ map JStr texts).
Proof.
  intros H. revert details.
  induction H as [|m text ms texts Hm _ IH]; intros details.
  - simpl. rewrite app_nil_r. reflexivity.
  - cbn [map extract_messages_loop get].
    destruct Hm as [->|[-> ->]]; cbn [rbind]; rewrite IH, <- app_assoc; reflexivity.
Qed.

Lemma get_default (fields : list (string * json)) (key : string) (fallback : json) :
  get (JObj fields) key fallback
  = Returned (default fallback (Py.dict_lookup key fields)).
Proof. unfold get. destruct (Py.dict_lookup key fields); reflexivity. Qed.

(** The extraction on a JSON object, as far as the two loops. *)
Lemma extract_object (response : Response) (fields : list (string * json)) :
  body response = JsonValue (JObj fields) ->
  _extract_cloudflare_errors response =
    (error_items <~ iterate (default (JList []) (Py.dict_lookup "errors" fields));;
     details <~ extract_errors_loop error_items [];;
     message_items <~ iterate (default (JList []) (Py.dict_lookup "messages" fields));;
     details <~ extract_messages_loop message_items details;;
     join_items "; " details).
Proof.
  intros Hbody. unfold _extract_cloudflare_errors, Response_json.
  rewrite Hbody, !get_default. reflexivity.
Qed.

End ExtractionEdges.

(** X4.  On a JSON object whose ["errors"] is a list of objects and whose
    ["messages"] is a list of strings (either key may be absent), the
    extraction returns one ["code=<code> message=<message>"] item per error,
    where an error without a ["code"] prints "unknown" and an error without
    a ["message"] prints "unknown error", then the messages, joined by
    ["; "]. *)
Theorem extract_defaults_missing_code_and_message
    (response : Response) (fields : list (string * json))
    (items : list (list (string * json))) (texts : list string) :
  body response = JsonValue (JObj fields) ->
  default (JList []) (Py.dict_lookup "errors" fields) = JList (map JObj items) ->
  default (JList []) (Py.dict_lookup "messages" fields) = JList (map JStr texts) ->
  _extract_cloudflare_errors response =
    Returned
      (Py.join "; "
         (map (fun item =>
                 "code=" +:+ Py.str (default (JStr "unknown") (Py.dict_lookup "code" item))
                   +:+ " message="
                   +:+ Py.str (default (JStr "unknown error")
                                 (Py.dict_lookup "message" item)))
              items ++ texts)).
Proof.
  intros Hbody Herrors Hmessages.
  rewrite (extract_object _ _ Hbody), Herrors, Hmessages. cbn [iterate rbind].
  rewrite extract_errors_loop_objects. cbn [rbind app].
  rewrite extract_messages_loop_texts. cbn [rbind].
  unfold join_items.
  rewrite <- (map_map
                (fun item =>
                   "code=" +:+ Py.str (default (JStr "unknown") (Py.dict_lookup "code" item))
                     +:+ " message="
                     +:+ Py.str (default (JStr "unknown error")
                                   (Py.dict_lookup "message" item)))
                JStr items).
  rewrite <- map_app, strings_of_strs. reflexivity.
Qed.

(** An instance: one error without a code, one without a message. *)
Lemma extract_defaults_missing_code_and_message_witness :
  _extract_cloudflare_errors
    (mkResponse 403 "Forbidden" "https://api.example"
       (JsonValue (JObj [("success", JBool false);
                         ("errors", JList [JObj [("message", JStr "Authentication error")];
                                           JObj [("code", JInt 10000)]])])))
  = Returned
      (Py.join "; "
         (["code=unknown message=Authentication error";
           "code=10000 message=unknown error"] ++ [])).
Proof.
  apply (extract_defaults_missing_code_and_message _
           [("success", JBool false);
            ("errors", JList [JObj [("message", JStr "Authentication error")];
                              JObj [("code", JInt 10000)]])]
           [[("message", JStr "Authentication error")]; [("code", JInt 10000)]] []);
    reflexivity.
Defined.

(** X5.  On a body that decodes to JSON but not to an object (a list, a
    string, a number, a boolean, null), the extraction raises
    [AttributeError] at [payload.get]. *)
Theorem extract_raises_on_non_object_body (response : Response) (payload : json) :
  body response = JsonValue payload ->
  (forall fields, payload <> JObj fields) ->
  exists message,
    _extract_cloudflare_errors response
    = Raised (mkException AttributeError message None).
Proof.
  intros Hbody Hshape. unfold _extract_cloudflare_errors, Response_json.
  rewrite Hbody.
  destruct payload as [| | | | |fields]; try (eexists; reflexivity).
  exfalso. exact (Hshape fields eq_refl).
Qed.

(** An instance: a gateway that answers with a bare JSON string. *)
Lemma extract_raises_on_non_object_body_witness :
  exists message,
    _extract_cloudflare_errors
      (mkResponse 502 "Bad Gateway" "https://api.example" (JsonValue (JStr "Bad Gateway")))
    = Raised (mkException AttributeError message None).
Proof.
  apply (extract_raises_on_non_object_body _ (JStr "Bad Gateway")); [reflexivity|].
  intros fields H. discriminate H.
Defined.

(** X6.  On a JSON object without usable errors whose ["messages"] is a
    list of objects, each message contributes its ["message"] string, and a
    message object without a ["message"] entry contributes the printed
    object itself. *)
Theorem extract_reads_message_objects
    (response : Response) (fields : list (string * json))
    (ms : list (list (string * json))) (texts : list string) :
  body response = JsonValue (JObj fields) ->
  default (JList []) (Py.dict_lookup "errors" fields) = JList [] ->
  default (JList []) (Py.dict_lookup "messages" fields) = JList (map JObj ms) ->
  Forall2 (fun m text =>
             Py.dict_lookup "message" m = Some (JStr text)
             \/ (Py.dict_lookup "message" m = None /\ text = Py.str (JObj m)))
          ms texts ->
  _extract_cloudflare_errors response = Returned (Py.join "; " texts).
Proof.
  intros Hbody Herrors Hmessages Hms.
  rewrite (extract_object _ _ Hbody), Herrors, Hmessages. cbn [iterate rbind extract_errors_loop].
  rewrite (extract_messages_loop_dicts _ _ _ Hms). cbn [rbind app].
  unfold join_items. rewrite strings_of_strs. reflexivity.
Qed.

(** An instance: one message with a text, one without. *)
Lemma extract_reads_message_objects_witness :
  _extract_cloudflare_errors
    (mkResponse 400 "Bad Request" "https://api.example"
       (JsonValue (JObj [("messages",
                          JList [JObj [("code", JInt 1); ("message", JStr "retry later")];
                                 JObj [("code", JInt 2)]])])))
  = Returned (Py.join "; " ["retry later"; "{'code': 2}"]).
Proof.
  apply (extract_reads_message_objects _
           [("messages",
             JList [JObj [("code", JInt 1); ("message", JStr "retry later")];
                    JObj [("code", JInt 2)]])]
           [[("code", JInt 1); ("message", JStr "retry later")]; [("code", JInt 2)]]);
    try reflexivity.
  constructor; [left; reflexivity|].
  constructor; [right; split; reflexivity|]. constructor.
Defined.

(** X7.  A message object whose ["message"] entry is not a string (a
    number, null, a list) breaks the extraction: the entry is collected as
    it is, and the final ["; ".join] raises [TypeError]. *)
Theorem extract_raises_on_message_that_is_no_string
    (response : Response) (fields m : list (string * json)) (rest : list json)
    (value : json) :
  body response = JsonValue (JObj fields) ->
  default (JList []) (Py.dict_lookup "errors" fields) = JList [] ->
  default (JList []) (Py.dict_lookup "messages" fields) = JList (JObj m :: rest) ->
  Py.dict_lookup "message" m = Some value ->
  (forall text, value <> JStr text) ->
  exists message,
    _extract_cloudflare_errors response = Raised (mkException TypeError message None).
Proof.
  intros Hbody Herrors Hmessages Hm Hvalue.
  rewrite (extract_object _ _ Hbody), Herrors, Hmessages.
  cbn [iterate rbind extract_errors_loop extract_messages_loop get]. rewrite Hm.
  cbn [rbind app].
  destruct (extract_messages_loop_returns rest [value]) as [added ->].
  cbn [rbind app]. unfold join_items. cbn [strings_of].
  destruct value as [| | |text| |]; try (eexists; reflexivity).
  exfalso. exact (Hvalue text eq_refl).
Qed.

(** An instance: a message whose text is null. *)
Lemma extract_raises_on_message_that_is_no_string_witness :
  exists message,
    _extract_cloudflare_errors
      (mkResponse 400 "Bad Request" "https://api.example"
         (JsonValue (JObj [("messages", JList [JObj [("message", JNull)]])])))
    = Raised (mkException TypeError message None).
Proof.
  apply (extract_raises_on_message_that_is_no_string _
           [("messages", JList [JObj [("message", JNull)]])]
           [("message", JNull)] [] JNull); try reflexivity.
  intros text H. discriminate H.
Defined.

(** ** The resolver, in full *)

(** X8.  Whatever the transport does, [get_current_ip] issues exactly one
    call: a [GET] of the IP-echo URL with the caller's timeout and with no
    headers, parameters or body (the API token is not in it); there is no
    second attempt. *)
Theorem get_current_ip_issues_one_bare_call
    (session : Session) (timeout : Z) (t : trace) :
  requests_of (snd (get_current_ip session timeout t))
  = mkRequest GET IPIFY_URL None None None timeout :: requests_of t.
Proof.
  destruct (get_current_ip session timeout t) as [r t'] eqn:E.
  exact (get_current_ip_one_call _ _ _ _ _ E).
Qed.

(** X9.  The three ways [get_current_ip] ends: it returns a value and logs
    nothing; or it returns [None] after one [ERROR] record that starts with
    "Error getting current IP: "; or an exception leaves it, and then the
    exception is no [RequestException] and nothing was logged. *)
Theorem get_current_ip_outcomes (session : Session) (timeout : Z) (t : trace) :
  let sent := mkRequest GET IPIFY_URL None None None timeout in
  (exists value, get_current_ip session timeout t = (Returned value, EvRequest sent :: t))
  \/ (exists text,
        get_current_ip session timeout t
        = (Returned JNull,
           EvLog ERROR ("Error getting current IP: " +:+ text) :: EvRequest sent :: t))
  \/ (exists e,
        get_current_ip session timeout t = (Raised e, EvRequest sent :: t)
        /\ is_RequestException (exc_type e) = false).
Proof.
  intros sent.
  unfold get_current_ip, try_except, bind, session_get, send, lift. fold sent.
  destruct (session (requests_of t) sent) as [response|e].
  - destruct (raise_for_status_cases response) as [[_ Hr]|[_ [message Hr]]];
      rewrite Hr; [|right; left; eexists; reflexivity].
    unfold Response_json. destruct (body response) as [payload|c msg].
    + destruct (getitem payload "ip") as [value|e] eqn:Hg.
      * left. exists value. reflexivity.
      * right. right. exists e.
        assert (Hc : is_RequestException (exc_type e) = false).
        { revert Hg. unfold getitem.
          destruct payload as [| | | | |fields]; try (intros [= <-]; reflexivity).
          destruct (Py.dict_lookup "ip" fields); [discriminate|].
          intros [= <-]. reflexivity. }
        rewrite Hc. split; reflexivity.
    + cbn [exc_type]. destruct (is_RequestException c) eqn:Hc.
      * right. left. eexists. reflexivity.
      * right. right. eexists. split; [reflexivity|exact Hc].
  - destruct (is_RequestException (exc_type e)) eqn:Hc.
    + right. left. eexists. reflexivity.
    + right. right. exists e. split; [reflexivity|exact Hc].
Qed.

(** X10.  When the IP-echo service answers, with a status outside 400..599,
    a body that decodes to JSON but not to an object, [get_current_ip]
    raises [TypeError]: nothing is returned and nothing is logged. *)
Theorem get_current_ip_raises_on_non_object_body
    (session : Session) (timeout : Z) (t : trace)
    (response : Response) (payload : json) :
  session (requests_of t) (mkRequest GET IPIFY_URL None None None timeout)
    = Respond response ->
  ~ (400 <= status_code response < 600) ->
  body response = JsonValue payload ->
  (forall fields, payload <> JObj fields) ->
  exists message,
    get_current_ip session timeout t
    = (Raised (mkException TypeError message None),
       EvRequest (mkRequest GET IPIFY_URL None None None timeout) :: t).
Proof.
  intros Hs Hst Hbody Hshape.
  unfold get_current_ip, try_except, bind, session_get, send, lift.
  rewrite Hs, (raise_for_status_returned _ Hst).
  unfold Response_json. rewrite Hbody.
  destruct payload as [| | | | |fields]; try (eexists; reflexivity).
  exfalso. exact (Hshape fields eq_refl).
Qed.

(** An instance: the service answers with a bare JSON string. *)
Lemma get_current_ip_raises_on_non_object_body_witness :
  exists message,
    get_current_ip
      (sample_session (respond 200 "OK" (JStr "1.2.3.4"))
                      (respond 200 "OK" (listing [sample_record]))
                      (respond 200 "OK" JNull))
      5 []
    = (Raised (mkException TypeError message None),
       [EvRequest (mkRequest GET IPIFY_URL None None None 5)]).
Proof.
  apply (get_current_ip_raises_on_non_object_body _ 5 []
           (mkResponse 200 "OK" "https://api.example" (JsonValue (JStr "1.2.3.4")))
           (JStr "1.2.3.4")); [reflexivity | simpl; lia | reflexivity |].
  intros fields H. discriminate H.
Defined.

(** ** The lookup, in full *)

(** X11.  Whatever the transport does, [get_dns_record] issues exactly one
    call: a [GET] of the zone's record listing with the caller's headers and
    timeout, filtered by type "A" and by the record name. *)
Theorem get_dns_record_issues_one_filtered_call
    (zone name : string) (headers : list (string * string))
    (session : Session) (timeout : Z) (t : trace) :
  requests_of (snd (get_dns_record zone name headers session timeout t))
  = mkRequest GET (CLOUDFLARE_API_BASE +:+ "/zones/" +:+ zone +:+ "/dns_records")
      (Some headers) (Some [("type", "A"); ("name", name)]) None timeout
    :: requests_of t.
Proof.
  destruct (get_dns_record zone name headers session timeout t) as [r t'] eqn:E.
  exact (get_dns_record_one_call _ _ _ _ _ _ _ _ E).
Qed.

(** X12.  When the listing answers, with a status outside 400..599, a JSON
    object that has no ["result"] key, or whose ["result"] is a false value
    (null, an empty list, an empty string, zero), [get_dns_record] returns
    [None] and logs nothing. *)
Theorem get_dns_record_none_without_result
    (zone name : string) (headers : list (string * string))
    (session : Session) (timeout : Z) (t : trace)
    (response : Response) (fields : list (string * json)) :
  let sent :=
    mkRequest GET (CLOUDFLARE_API_BASE +:+ "/zones/" +:+ zone +:+ "/dns_records")
      (Some headers) (Some [("type", "A"); ("name", name)]) None timeout in
  session (requests_of t) sent = Respond response ->
  ~ (400 <= status_code response < 600) ->
  body response = JsonValue (JObj fields) ->
  Py.truthy (default (JList []) (Py.dict_lookup "result" fields)) = false ->
  get_dns_record zone name headers session timeout t
  = (Returned JNull, EvRequest sent :: t).
Proof.
  intros sent Hs Hst Hbody Hfalse.
  unfold get_dns_record, try_except, bind, session_get, send, lift. fold sent.
  rewrite Hs, (raise_for_status_returned _ Hst).
  unfold Response_json. rewrite Hbody, get_default, Hfalse. reflexivity.
Qed.

(** An instance: the provider answers 200 with ["result": null]. *)
Lemma get_dns_record_none_without_result_witness :
  get_dns_record "z1" "a.example.com" (build_headers "3f9c2d7e1b")
    (sample_session (respond 200 "OK" (ip_body "8.8.8.8"))
                    (respond 200 "OK" (JObj [("success", JBool true); ("result", JNull)]))
                    (respond 200 "OK" JNull))
    10 []
  = (Returned JNull,
     [EvRequest
        (mkRequest GET (CLOUDFLARE_API_BASE +:+ "/zones/" +:+ "z1" +:+ "/dns_records")
           (Some (build_headers "3f9c2d7e1b"))
           (Some [("type", "A"); ("name", "a.example.com")]) None 10)]).
Proof.
  apply (get_dns_record_none_without_result "z1" "a.example.com"
           (build_headers "3f9c2d7e1b") _ 10 []
           (mkResponse 200 "OK" "https://api.example"
              (JsonValue (JObj [("success", JBool true); ("result", JNull)])))
           [("success", JBool true); ("result", JNull)]);
    [reflexivity | simpl; lia | reflexivity | reflexivity].
Defined.

(** X13.  When the listing answers with a status in 400..599 and the
    extraction returns details, [get_dns_record] returns [None] after one
    [ERROR] record: the error, followed by the details in brackets when
    there are any, and by nothing when the details are empty. *)
Theorem get_dns_record_logs_details_in_brackets
    (zone name : string) (headers : list (string * string))
    (session : Session) (timeout : Z) (t : trace)
    (response : Response) (details : string) :
  let sent :=
    mkRequest GET (CLOUDFLARE_API_BASE +:+ "/zones/" +:+ zone +:+ "/dns_records")
      (Some headers) (Some [("type", "A"); ("name", name)]) None timeout in
  session (requests_of t) sent = Respond response ->
  400 <= status_code response < 600 ->
  _extract_cloudflare_errors response = Returned details ->
  exists error,
    raise_for_status response = Raised (mkException HTTPError error (Some response))
    /\ get_dns_record zone name headers session timeout t
       = (Returned JNull,
          EvLog ERROR
            (if Py.str_truthy details
             then "Error getting DNS record: " +:+ error +:+ " (" +:+ details +:+ ")"
             else "Error getting DNS record: " +:+ error)
            :: EvRequest sent :: t).
Proof.
  intros sent Hs Hst Hdetails.
  destruct (raise_for_status_raised _ Hst) as [error Hr].
  exists error. split; [exact Hr|].
  unfold get_dns_record, try_except, bind at 1 2 3 4, session_get, send, lift.
  fold sent. rewrite Hs, Hr. cbn [exc_type is_RequestException].
  rewrite (bind_returned _ _ _ _ _
             (log_request_error_details "Error getting DNS record: "
                (mkException HTTPError error (Some response))
                (EvRequest sent :: t) response details eq_refl Hdetails)).
  reflexivity.
Qed.

(** An instance: the rejected lookup of the repository's test. *)
Lemma get_dns_record_logs_details_in_brackets_witness :
  exists error,
    raise_for_status
      (mkResponse 400 "Bad Request" "https://api.example"
         (JsonValue (JObj [("errors",
                            JList [JObj [("code", JInt 6003);
                                         ("message", JStr "Invalid request headers")]])])))
    = Raised (mkException HTTPError error
                (Some (mkResponse 400 "Bad Request" "https://api.example"
                         (JsonValue
                            (JObj [("errors",
                                    JList [JObj [("code", JInt 6003);
                                                 ("message",
                                                  JStr "Invalid request headers")]])])))))
    /\ get_dns_record "zone-id" "example.com" []
         (sample_session
            (respond 200 "OK" (ip_body "8.8.8.8"))
            (respond 400 "Bad Request"
               (JObj [("errors",
                       JList [JObj [("code", JInt 6003);
                                    ("message", JStr "Invalid request headers")]])]))
            (respond 200 "OK" JNull))
         10 []
       = (Returned JNull,
          [EvLog ERROR
             ("Error getting DNS record: " +:+ error
                +:+ " (" +:+ "code=6003 message=Invalid request headers" +:+ ")");
           EvRequest
             (mkRequest GET
                (CLOUDFLARE_API_BASE +:+ "/zones/" +:+ "zone-id" +:+ "/dns_records")
                (Some []) (Some [("type", "A"); ("name", "example.com")]) None 10)]).
Proof.
  apply (get_dns_record_logs_details_in_brackets "zone-id" "example.com" [] _ 10 []
           (mkResponse 400 "Bad Request" "https://api.example"
              (JsonValue (JObj [("errors",
                                 JList [JObj [("code", JInt 6003);
                                              ("message",
                                               JStr "Invalid request headers")]])])))
           "code=6003 message=Invalid request headers");
    [reflexivity | simpl; lia | reflexivity].
Defined.

(** ** The update, at its edges *)

(** X14.  A record that is no dict, or has no ["id"], or has an ["id"] but
    no ["name"], makes [update_dns_record] raise at once: no call is made
    and nothing is logged. *)
Theorem update_dns_record_unreadable_record_makes_no_call
    (zone : string) (record new_ip : json) (headers : list (string * string))
    (session : Session) (timeout : Z) (t : trace) (e : exception) :
  getitem record "id" = Raised e
  \/ (exists rid, getitem record "id" = Returned rid
                  /\ getitem record "name" = Raised e) ->
  update_dns_record zone record new_ip headers session timeout t = (Raised e, t).
Proof.
  unfold update_dns_record, bind, lift.
  intros [->|(rid & -> & ->)]; reflexivity.
Qed.

(** An instance: a record with an identifier and no name. *)
Lemma update_dns_record_unreadable_record_makes_no_call_witness :
  update_dns_record "z1" (JObj [("id", JStr "r1"); ("content", JStr "1.2.3.4")])
    (JStr "8.8.8.8") (build_headers "3f9c2d7e1b")
    (sample_session (respond 200 "OK" (ip_body "8.8.8.8"))
                    (respond 200 "OK" (listing []))
                    (respond 200 "OK" JNull))
    10 []
  = (Raised (mkException KeyError "'name'" None), []).
Proof.
  apply (update_dns_record_unreadable_record_makes_no_call "z1"
           (JObj [("id", JStr "r1"); ("content", JStr "1.2.3.4")])).
  right. exists (JStr "r1"). split; reflexivity.
Defined.

(** X15.  When the [PUT] raises an exception that is no [RequestException],
    [update_dns_record] does not turn it into [False]: the exception leaves
    the function after the one call, and nothing is logged. *)
Theorem update_dns_record_passes_on_other_exceptions
    (zone : string) (fields : list (string * json)) (new_ip : json)
    (headers : list (string * string)) (session : Session) (timeout : Z)
    (t : trace) (rid name : json) (e : exception) :
  Py.dict_lookup "id" fields = Some rid ->
  Py.dict_lookup "name" fields = Some name ->
  (forall r, req_method r = PUT -> session (requests_of t) r = Fail e) ->
  is_RequestException (exc_type e) = false ->
  exists sent,
    update_dns_record zone (JObj fields) new_ip headers session timeout t
    = (Raised e, EvRequest sent :: t)
    /\ req_method sent = PUT.
Proof.
  intros Hid Hname Hs Hclass.
  rewrite (update_dns_record_cases zone fields new_ip headers session timeout t
             rid name Hid Hname).
  rewrite Hs by reflexivity. rewrite Hclass. eexists. split; reflexivity.
Qed.

(** An instance: the transport raises a [ValueError]. *)
Lemma update_dns_record_passes_on_other_exceptions_witness :
  exists sent,
    update_dns_record "z1" sample_record (JStr "8.8.8.8") (build_headers "3f9c2d7e1b")
      (sample_session (respond 200 "OK" (ip_body "8.8.8.8"))
                      (respond 200 "OK" (listing [sample_record]))
                      (Fail (mkException ValueError "bad header value" None)))
      10 []
    = (Raised (mkException ValueError "bad header value" None), [EvRequest sent])
    /\ req_method sent = PUT.
Proof.
  apply (update_dns_record_passes_on_other_exceptions "z1" sample_fields
           (JStr "8.8.8.8") (build_headers "3f9c2d7e1b") _ 10 []
           (JStr "r1") (JStr "a.example.com"));
    [reflexivity | reflexivity | | reflexivity].
  intros r Hr. unfold sample_session. rewrite Hr. reflexivity.
Defined.

(** X16.  When the [PUT] raises a [RequestException] that carries no
    response (a connection error, a timeout), [update_dns_record] returns
    [False] after one [ERROR] record, which is the context followed by the
    error and has no details in brackets. *)
Theorem update_dns_record_transport_error_logs_plain_message
    (zone : string) (fields : list (string * json)) (new_ip : json)
    (headers : list (string * string)) (session : Session) (timeout : Z)
    (t : trace) (rid name : json) (e : exception) :
  Py.dict_lookup "id" fields = Some rid ->
  Py.dict_lookup "name" fields = Some name ->
  (forall r, req_method r = PUT -> session (requests_of t) r = Fail e) ->
  is_RequestException (exc_type e) = true ->
  exc_response e = None ->
  exists sent,
    update_dns_record zone (JObj fields) new_ip headers session timeout t
    = (Returned false,
       EvLog ERROR ("Error updating DNS record: " +:+ exc_str e) :: EvRequest sent :: t)
    /\ req_method sent = PUT.
Proof.
  intros Hid Hname Hs Hclass Hnone.
  rewrite (update_dns_record_cases zone fields new_ip headers session timeout t
             rid name Hid Hname).
  rewrite Hs by reflexivity. rewrite Hclass.
  rewrite (bind_returned _ _ _ _ _
             (log_request_error_no_response "Error updating DNS record: " e _ Hnone)).
  eexists. split; reflexivity.
Qed.

(** An instance: the network is down. *)
Lemma update_dns_record_transport_error_logs_plain_message_witness :
  exists sent,
    update_dns_record "z1" sample_record (JStr "8.8.8.8") (build_headers "3f9c2d7e1b")
      (sample_session (respond 200 "OK" (ip_body "8.8.8.8"))
                      (respond 200 "OK" (listing [sample_record]))
                      (Fail network_error))
      10 []
    = (Returned false,
       [EvLog ERROR ("Error updating DNS record: " +:+ exc_str network_error);
        EvRequest sent])
    /\ req_method sent = PUT.
Proof.
  apply (update_dns_record_transport_error_logs_plain_message "z1" sample_fields
           (JStr "8.8.8.8") (build_headers "3f9c2d7e1b") _ 10 []
           (JStr "r1") (JStr "a.example.com"));
    [reflexivity | reflexivity | | reflexivity | reflexivity].
  intros r Hr. unfold sample_session. rewrite Hr. reflexivity.
Defined.

(** X17.  The update judges success by the status alone: on an answer with
    a status outside 400..599 it returns [True] and logs the record name and
    the new address, whatever the body of the answer is, even one that is
    no JSON or reports a failure. *)
Theorem update_dns_record_success_ignores_body
    (zone : string) (fields : list (string * json)) (new_ip : json)
    (headers : list (string * string)) (session : Session) (timeout : Z)
    (t : trace) (rid name : json) (response : Response) :
  Py.dict_lookup "id" fields = Some rid ->
  Py.dict_lookup "name" fields = Some name ->
  (forall r, req_method r = PUT -> session (requests_of t) r = Respond response) ->
  ~ (400 <= status_code response < 600) ->
  exists sent,
    update_dns_record zone (JObj fields) new_ip headers session timeout t
    = (Returned true,
       EvLog INFO ("DNS record for " +:+ Py.str name +:+ " updated to "
                     +:+ Py.str new_ip) :: EvRequest sent :: t)
    /\ req_method sent = PUT.
Proof.
  intros Hid Hname Hs Hst.
  rewrite (update_dns_record_cases zone fields new_ip headers session timeout t
             rid name Hid Hname).
  rewrite Hs by reflexivity. rewrite (raise_for_status_returned _ Hst).
  eexists. split; reflexivity.
Qed.

(** An instance: a 200 answer whose body says the update failed. *)
Lemma update_dns_record_success_ignores_body_witness :
  exists sent,
    update_dns_record "z1" sample_record (JStr "8.8.8.8") (build_headers "3f9c2d7e1b")
      (sample_session (respond 200 "OK" (ip_body "8.8.8.8"))
                      (respond 200 "OK" (listing [sample_record]))
                      (respond 200 "OK" (JObj [("success", JBool false)])))
      10 []
    = (Returned true,
       [EvLog INFO ("DNS record for " +:+ Py.str (JStr "a.example.com") +:+ " updated to "
                      +:+ Py.str (JStr "8.8.8.8"));
        EvRequest sent])
    /\ req_method sent = PUT.
Proof.
  apply (update_dns_record_success_ignores_body "z1" sample_fields
           (JStr "8.8.8.8") (build_headers "3f9c2d7e1b") _ 10 []
           (JStr "r1") (JStr "a.example.com")
           (mkResponse 200 "OK" "https://api.example"
              (JsonValue (JObj [("success", JBool false)]))));
    [reflexivity | reflexivity | | simpl; lia].
  intros r Hr. unfold sample_session. rewrite Hr. reflexivity.
Defined.

(** ** The orchestrator: the calls of a run *)

Section Calls.

Variables (environ : gmap string string) (requests : Session) (t : trace).

(** The calls of a run of [main], most recent first: none when the
    configuration fails; else the resolver's call; then the lookup's call;
    and a [PUT] only when the run reached the comparison with addresses
    that differ. *)
Lemma main_calls (r : result Z) (t' : trace) :
  main environ requests t = (r, t') ->
  requests_of t' = requests_of t
  \/ requests_of t' = resolver_call :: requests_of t
  \/ exists config,
       load_config_from_env environ t = (Returned (Some config), t)
       /\ (requests_of t' = lookup_call config :: resolver_call :: requests_of t
           \/ exists put current_ip dns_record existing_ip t2 rid,
                requests_of t' = put :: lookup_call config :: resolver_call :: requests_of t
                /\ reaches_comparison environ requests t config current_ip dns_record
                     existing_ip t2
                /\ Py.eq current_ip existing_ip = false
                /\ req_method put = PUT
                /\ req_timeout put = REQUEST_TIMEOUT_SECONDS
                /\ req_headers put = Some (build_headers (api_token config))
                /\ req_url put = CLOUDFLARE_API_BASE +:+ "/zones/" +:+ zone_id config
                                   +:+ "/dns_records/" +:+ rid).
Proof.
  intros Hmain.
  destruct (load_config_returns environ t) as ([config|] & t0 & H0).
  2: { left. rewrite (main_config_failure _ _ _ _ H0) in Hmain.
       injection Hmain as _ <-. exact (silent_load_config _ _ _ _ H0). }
  destruct (load_config_some _ _ _ _ H0) as (_ & _ & _ & _ & ->).
  destruct (get_current_ip requests REQUEST_TIMEOUT_SECONDS (at_resolve t))
    as [[current_ip|e] t1] eqn:H1;
    pose proof (get_current_ip_one_call _ _ _ _ _ H1) as Hcall1;
    change (requests_of t1 = resolver_call :: requests_of t) in Hcall1.
  2: { right. left. rewrite (main_resolver_raises _ _ _ _ _ _ _ H0 H1) in Hmain.
       injection Hmain as _ <-. exact Hcall1. }
  destruct (Py.truthy current_ip) eqn:Htrue.
  2: { right. left.
       rewrite (main_resolver_failure _ _ _ _ _ _ _ H0 H1 Htrue) in Hmain.
       injection Hmain as _ <-. exact Hcall1. }
  right. right. exists config. split; [exact H0|].
  destruct (get_dns_record (zone_id config) (record_name config)
              (build_headers (api_token config)) requests REQUEST_TIMEOUT_SECONDS
              (at_lookup current_ip t1)) as [[dns_record|e] t2] eqn:H2;
    pose proof (get_dns_record_one_call _ _ _ _ _ _ _ _ H2) as Hcall2;
    change (requests_of t2 = lookup_call config :: requests_of t1) in Hcall2;
    rewrite Hcall1 in Hcall2.
  2: { left. rewrite (main_lookup_raises _ _ _ _ _ _ _ _ _ H0 H1 Htrue H2) in Hmain.
       injection Hmain as _ <-. exact Hcall2. }
  destruct (Py.truthy dns_record) eqn:Htrue2.
  2: { left.
       rewrite (main_lookup_failure _ _ _ _ _ _ _ _ _ H0 H1 Htrue H2 Htrue2) in Hmain.
       injection Hmain as _ <-. exact Hcall2. }
  destruct (getitem dns_record "content") as [existing_ip|e] eqn:H3.
  2: { left.
       rewrite (main_content_raises _ _ _ _ _ _ _ _ _ _ H0 H1 Htrue H2 Htrue2 H3)
         in Hmain.
       injection Hmain as _ <-. exact Hcall2. }
  assert (Hreach : reaches_comparison environ requests t config current_ip dns_record
                     existing_ip t2)
    by (exists t, t1; repeat split; assumption).
  rewrite (main_from_comparison _ _ _ _ _ _ _ _ Hreach) in Hmain.
  destruct (Py.eq current_ip existing_ip) eqn:Heq.
  { left. injection Hmain as _ <-. exact Hcall2. }
  destruct (update_dns_record (zone_id config) dns_record current_ip
              (build_headers (api_token config)) requests REQUEST_TIMEOUT_SECONDS
              (at_update config current_ip existing_ip t2)) as [r4 t4] eqn:H4.
  destruct (update_dns_record_calls _ _ _ _ _ _ _ _ _ H4)
    as [(-> & e & -> & _)|(fields & rid & name & -> & Hid & Hname & Hcall4)].
  { left. injection Hmain as _ <-. exact Hcall2. }
  right.
  match type of Hcall4 with _ = ?p :: _ => exists p end.
  exists current_ip, (JObj fields), existing_ip, t2, (Py.str rid).
  split.
  - change (requests_of (at_update config current_ip existing_ip t2))
      with (requests_of t2) in Hcall4. rewrite Hcall2 in Hcall4.
    destruct r4 as [[|]|e]; injection Hmain as _ <-; exact Hcall4.
  - split; [exact Hreach|]. split; [exact Heq|]. repeat split.
Qed.

End Calls.

(** X18.  A run of [main] issues at most three calls and never repeats one:
    the resolver's [GET], then the lookup's [GET], then at most one [PUT]
    (the list below is most recent first); each call has the timeout of 10
    seconds. *)
Theorem main_issues_at_most_three_bounded_calls
    (environ : gmap string string) (requests : Session) (t : trace) :
  exists new,
    requests_of (snd (main environ requests t)) = new ++ requests_of t
    /\ (map req_method new = []
        \/ map req_method new = [GET]
        \/ map req_method new = [GET; GET]
        \/ map req_method new = [PUT; GET; GET])
    /\ Forall (fun r => req_timeout r = 10) new.
Proof.
  destruct (main environ requests t) as [r t'] eqn:Hmain.
  destruct (main_calls _ _ _ _ _ Hmain)
    as [H|[H|(config & _ & [H|(put & ip & rec & ex & t2 & rid & H & _ & _ & Hm & Ht & _)])]];
    cbn [snd].
  - exists []. split; [exact H|]. split; [left; reflexivity|constructor].
  - exists [resolver_call]. split; [exact H|].
    split; [right; left; reflexivity|]. repeat constructor.
  - exists [lookup_call config; resolver_call]. split; [exact H|].
    split; [right; right; left; reflexivity|]. repeat constructor.
  - exists [put; lookup_call config; resolver_call]. split; [exact H|].
    split; [right; right; right; cbn [map]; rewrite Hm; reflexivity|].
    repeat constructor. exact Ht.
Qed.

(** X19.  The token stays with the provider: in a run of [main] every call
    that carries headers (the [Authorization] header is among them) goes to
    a URL under the provider's API base, and the only call without headers
    is the resolver's call to the IP-echo service. *)
Theorem main_sends_headers_to_the_provider_only
    (environ : gmap string string) (requests : Session) (t : trace) :
  exists new,
    requests_of (snd (main environ requests t)) = new ++ requests_of t
    /\ Forall (fun r =>
                 match req_headers r with
                 | Some _ => Py.startswith CLOUDFLARE_API_BASE (req_url r) = true
                 | None => r = resolver_call
                 end) new.
Proof.
  destruct (main environ requests t) as [r t'] eqn:Hmain.
  destruct (main_calls _ _ _ _ _ Hmain)
    as [H|[H|(config & _ &
              [H|(put & ip & rec & ex & t2 & rid & H & _ & _ & _ & _ & Hh & Hu)])]];
    cbn [snd].
  - exists []. split; [exact H|constructor].
  - exists [resolver_call]. split; [exact H|]. repeat constructor.
  - exists [lookup_call config; resolver_call]. split; [exact H|].
    constructor; [apply startswith_append|]. repeat constructor.
  - exists [put; lookup_call config; resolver_call]. split; [exact H|].
    constructor; [rewrite Hh, Hu; apply startswith_append|].
    constructor; [apply startswith_append|]. repeat constructor.
Qed.

(** X20.  A run of [main] issues no [PUT], or exactly one; and it issues one
    only when the run reached the comparison and the resolved address
    differs from the content of the record. *)
Theorem main_updates_only_after_a_mismatch
    (environ : gmap string string) (requests : Session) (t : trace) :
  puts_of (snd (main environ requests t)) = puts_of t
  \/ exists put config current_ip dns_record existing_ip t2,
       puts_of (snd (main environ requests t)) = put :: puts_of t
       /\ reaches_comparison environ requests t config current_ip dns_record
            existing_ip t2
       /\ Py.eq current_ip existing_ip = false.
Proof.
  destruct (main environ requests t) as [r t'] eqn:Hmain.
  destruct (main_calls _ _ _ _ _ Hmain)
    as [H|[H|(config & _ &
              [H|(put & ip & rec & ex & t2 & rid & H & Hreach & Hne & Hm & _)])]];
    cbn [snd]; unfold puts_of; rewrite H.
  - left. reflexivity.
  - left. reflexivity.
  - left. reflexivity.
  - right. exists put, config, ip, rec, ex, t2.
    split; [|split; assumption].
    cbn [List.filter]. rewrite Hm. reflexivity.
Qed.

(** X21.  When the looked-up record is a non-empty dict without a
    ["content"] entry, the run is left by [KeyError] right after the lookup:
    [main] returns no exit code, logs no error and issues no [PUT]. *)
Theorem main_raises_on_record_without_content
    (environ : gmap string string) (requests : Session) (t : trace)
    (config : Config) (t0 t1 t2 : trace) (current_ip : json)
    (fields : list (string * json)) :
  load_config_from_env environ t = (Returned (Some config), t0) ->
  get_current_ip requests REQUEST_TIMEOUT_SECONDS (at_resolve t0)
    = (Returned current_ip, t1) ->
  Py.truthy current_ip = true ->
  get_dns_record (zone_id config) (record_name config)
    (build_headers (api_token config)) requests REQUEST_TIMEOUT_SECONDS
    (at_lookup current_ip t1) = (Returned (JObj fields), t2) ->
  fields <> [] ->
  Py.dict_lookup "content" fields = None ->
  main environ requests t = (Raised (mkException KeyError "'content'" None), t2)
  /\ puts_of t2 = puts_of t.
Proof.
  intros H0 H1 Htrue H2 Hne Hcontent.
  split.
  - apply (main_content_raises _ _ _ _ _ _ _ _ _ _ H0 H1 Htrue H2).
    + destruct fields; [contradiction|reflexivity].
    + unfold getitem. rewrite Hcontent. reflexivity.
  - rewrite (no_put_get_dns_record _ _ _ _ _ _ _ _ H2). unfold at_lookup.
    rewrite puts_of_log, (no_put_get_current_ip _ _ _ _ _ H1). unfold at_resolve.
    rewrite puts_of_log. exact (no_put_load_config _ _ _ _ H0).
Qed.

(** An instance: the listing returns a record with an id and a name only. *)
Lemma main_raises_on_record_without_content_witness :
  main sample_environ
    (sample_session (respond 200 "OK" (ip_body "8.8.8.8"))
                    (respond 200 "OK"
                       (listing [JObj [("id", JStr "r1"); ("name", JStr "a.example.com")]]))
                    (respond 200 "OK" JNull))
    []
  = (Raised (mkException KeyError "'content'" None),
     [EvRequest (lookup_call sample_config);
      EvLog INFO "Current public IP: 8.8.8.8";
      EvRequest resolver_call;
      EvLog INFO "Starting Cloudflare DDNS update process..."])
  /\ puts_of
       [EvRequest (lookup_call sample_config);
        EvLog INFO "Current public IP: 8.8.8.8";
        EvRequest resolver_call;
        EvLog INFO "Starting Cloudflare DDNS update process..."]
     = puts_of [].
Proof.
  apply (main_raises_on_record_without_content sample_environ _ [] sample_config []
           [EvRequest resolver_call;
            EvLog INFO "Starting Cloudflare DDNS update process..."]
           _ (JStr "8.8.8.8")
           [("id", JStr "r1"); ("name", JStr "a.example.com")]);
    try reflexivity. discriminate.
Defined.

(** X22.  A missing record is fatal and never created: when the listing
    answers 2xx with a ["result"] list that is empty, or whose first entry
    is a false value (an empty object, null), [main] logs that the record
    was not found and must be created by hand, returns exit code 1, and has
    issued the two [GET] calls and no [PUT]. *)
Theorem main_stops_when_no_record_is_found
    (environ : gmap string string) (requests : Session) (t : trace)
    (config : Config) (t0 t1 : trace) (current_ip : json)
    (response : Response) (fields : list (string * json)) (records : list json) :
  load_config_from_env environ t = (Returned (Some config), t0) ->
  get_current_ip requests REQUEST_TIMEOUT_SECONDS (at_resolve t0)
    = (Returned current_ip, t1) ->
  Py.truthy current_ip = true ->
  requests (requests_of (at_lookup current_ip t1)) (lookup_call config)
    = Respond response ->
  200 <= status_code response < 300 ->
  body response = JsonValue (JObj fields) ->
  Py.dict_lookup "result" fields = Some (JList records) ->
  Py.truthy (match records with first :: _ => first | [] => JNull end) = false ->
  main environ requests t
  = (Returned 1,
     EvLog ERROR ("DNS record for " +:+ record_name config
        +:+ " not found. Please create it manually in Cloudflare first. Exiting.")
       :: EvRequest (lookup_call config) :: at_lookup current_ip t1)
  /\ requests_of (snd (main environ requests t))
     = lookup_call config :: resolver_call :: requests_of t.
Proof.
  intros H0 H1 Htrue Hs Hst Hbody Hres Hfalse.
  assert (H2 : get_dns_record (zone_id config) (record_name config)
                 (build_headers (api_token config)) requests REQUEST_TIMEOUT_SECONDS
                 (at_lookup current_ip t1)
               = (Returned (match records with first :: _ => first | [] => JNull end),
                  EvRequest (lookup_call config) :: at_lookup current_ip t1)).
  { apply (get_dns_record_listing _ _ _ _ _ _ response fields records);
      [exact Hs | lia | exact Hbody | exact Hres]. }
  rewrite (main_lookup_failure _ _ _ _ _ _ _ _ _ H0 H1 Htrue H2 Hfalse).
  split; [reflexivity|].
  cbn [snd requests_of at_lookup]. f_equal.
  rewrite (get_current_ip_one_call _ _ _ _ _ H1). unfold at_resolve. cbn [requests_of].
  f_equal. exact (silent_load_config _ _ _ _ H0).
Qed.

(** An instance: the listing returns one empty object. *)
Lemma main_stops_when_no_record_is_found_witness :
  main sample_environ
    (sample_session (respond 200 "OK" (ip_body "8.8.8.8"))
                    (respond 200 "OK" (listing [JObj []]))
                    (respond 200 "OK" JNull))
    []
  = (Returned 1,
     EvLog ERROR ("DNS record for " +:+ record_name sample_config
        +:+ " not found. Please create it manually in Cloudflare first. Exiting.")
       :: EvRequest (lookup_call sample_config)
       :: at_lookup (JStr "8.8.8.8")
            [EvRequest resolver_call;
             EvLog INFO "Starting Cloudflare DDNS update process..."])
  /\ requests_of
       (snd (main sample_environ
               (sample_session (respond 200 "OK" (ip_body "8.8.8.8"))
                               (respond 200 "OK" (listing [JObj []]))
                               (respond 200 "OK" JNull))
               []))
     = lookup_call sample_config :: resolver_call :: requests_of [].
Proof.
  apply (main_stops_when_no_record_is_found sample_environ _ [] sample_config []
           [EvRequest resolver_call;
            EvLog INFO "Starting Cloudflare DDNS update process..."]
           (JStr "8.8.8.8")
           (mkResponse 200 "OK" "https://api.example" (JsonValue (listing [JObj []])))
           [("result", JList [JObj []])] [JObj []]);
    try reflexivity. simpl. lia.
Defined.

(** ** The orchestrator: exit code and error log *)

Section ExitAndLog.

(** A refused configuration leaves one [ERROR] record. *)
Lemma load_config_none_logs (environ : gmap string string) (t t0 : trace) :
  load_config_from_env environ t = (Returned None, t0) ->
  exists message, t0 = EvLog ERROR message :: t.
Proof.
  rewrite load_config_cases.
  destruct (List.filter _ required_variables).
  - destruct (looks_like_placeholder _); [|discriminate].
    intros [= <-]. eexists. reflexivity.
  - intros [= <-]. eexists. reflexivity.
Qed.

(** A true value from the resolver comes with no log record. *)
Lemma get_current_ip_value_logs_nothing (session : Session) (timeout : Z)
    (t t' : trace) (value : json) :
  get_current_ip session timeout t = (Returned value, t') ->
  Py.truthy value = true ->
  t' = EvRequest (mkRequest GET IPIFY_URL None None None timeout) :: t.
Proof.
  unfold get_current_ip, try_except, bind, session_get, send, lift.
  destruct (session _ _) as [response|e].
  - destruct (raise_for_status response) as [[]|e].
    + destruct (Response_json response) as [payload|e].
      * destruct (getitem payload "ip") as [x|e].
        -- intros [= _ <-] _. reflexivity.
        -- destruct (is_RequestException (exc_type e)); [|discriminate].
           cbn. intros [= <- _]. discriminate.
      * destruct (is_RequestException (exc_type e)); [|discriminate].
        cbn. intros [= <- _]. discriminate.
    + destruct (is_RequestException (exc_type e)); [|discriminate].
      cbn. intros [= <- _]. discriminate.
  - destruct (is_RequestException (exc_type e)); [|discriminate].
    cbn. intros [= <- _]. discriminate.
Qed.

(** The [except] branch of the lookup never yields a true value. *)
Lemma lookup_handler_no_value (e : exception) (t t' : trace) (value : json) :
  bind (log_request_error "Error getting DNS record: " e) (fun _ => ret JNull) t
    = (Returned value, t') ->
  Py.truthy value = false.
Proof.
  unfold bind. destruct (log_request_error _ e t) as [[[]|e'] t1]; [|discriminate].
  intros [= <- _]. reflexivity.
Qed.

(** A true value from the lookup comes with no log record. *)
Lemma get_dns_record_value_logs_nothing (zone name : string)
    (headers : list (string * string)) (session : Session) (timeout : Z)
    (t t' : trace) (value : json) :
  get_dns_record zone name headers session timeout t = (Returned value, t') ->
  Py.truthy value = true ->
  t' = EvRequest
         (mkRequest GET (CLOUDFLARE_API_BASE +:+ "/zones/" +:+ zone +:+ "/dns_records")
            (Some headers) (Some [("type", "A"); ("name", name)]) None timeout) :: t.
Proof.
  unfold get_dns_record, try_except, bind at 1 2 3 4, session_get, send, lift.
  assert (Hh : forall e t1, 
             (if is_RequestException (exc_type e)
              then bind (log_request_error "Error getting DNS record: " e)
                        (fun _ => ret JNull) t1
              else (Raised e, t1)) = (Returned value, t') ->
             Py.truthy value = true -> False).
  { intros e t1. destruct (is_RequestException (exc_type e)); [|discriminate].
    intros H Htrue. rewrite (lookup_handler_no_value _ _ _ _ H) in Htrue.
    discriminate. }
  destruct (session _ _) as [response|e].
  - destruct (raise_for_status response) as [[]|e].
    + destruct (Response_json response) as [payload|e].
      * destruct (get payload "result" (JList [])) as [records|e].
        -- destruct (Py.truthy records).
           ++ destruct (getitem0 records) as [x|e].
              ** intros [= _ <-] _. reflexivity.
              ** intros H Htrue. destruct (Hh _ _ H Htrue).
           ++ cbn. intros [= <- _]. discriminate.
        -- intros H Htrue. destruct (Hh _ _ H Htrue).
      * intros H Htrue. destruct (Hh _ _ H Htrue).
    + intros H Htrue. destruct (Hh _ _ H Htrue).
  - intros H Htrue. destruct (Hh _ _ H Htrue).
Qed.

(** An update that returns [True] has logged no error. *)
Lemma update_true_logs_no_error (zone : string) (record new_ip : json)
    (headers : list (string * string)) (session : Session) (timeout : Z)
    (t t' : trace) :
  update_dns_record zone record new_ip headers session timeout t = (Returned true, t') ->
  errors_of t' = errors_of t.
Proof.
  intros Hrun.
  destruct (update_dns_record_calls _ _ _ _ _ _ _ _ _ Hrun)
    as [(_ & e & He & _)|(fields & rid & name & -> & Hid & Hname & _)];
    [discriminate He|].
  rewrite (update_dns_record_cases _ _ _ _ _ _ _ _ _ Hid Hname) in Hrun.
  assert (Hh : forall e t1,
             bind (log_request_error "Error updating DNS record: " e)
                  (fun _ => ret false) t1 = (Returned true, t') -> False).
  { intros e t1. unfold bind.
    destruct (log_request_error _ e t1) as [[[]|e'] t2]; discriminate. }
  destruct (session _ _) as [response|e].
  - destruct (raise_for_status response) as [[]|e].
    + injection Hrun as <-. reflexivity.
    + destruct (Hh _ _ Hrun).
  - destruct (is_RequestException (exc_type e)); [destruct (Hh _ _ Hrun)|discriminate].
Qed.

End ExitAndLog.

(** X23.  The exit code and the error log agree: a run of [main] that
    returns 0 has logged no error, and a run that returns 1 has an [ERROR]
    record as its last event; [main] returns no other code. *)
Theorem main_exit_code_agrees_with_error_log
    (environ : gmap string string) (requests : Session) (t t' : trace) (code : Z) :
  main environ requests t = (Returned code, t') ->
  (code = 0 /\ errors_of t' = errors_of t)
  \/ (code = 1 /\ exists message rest, t' = EvLog ERROR message :: rest).
Proof.
  intros Hmain.
  destruct (load_config_returns environ t) as ([config|] & t0 & H0).
  2: { right. rewrite (main_config_failure _ _ _ _ H0) in Hmain.
       injection Hmain as <- <-. split; [reflexivity|].
       destruct (load_config_none_logs _ _ _ H0) as [message ->].
       eexists. eexists. reflexivity. }
  destruct (load_config_some _ _ _ _ H0) as (_ & _ & _ & _ & ->).
  destruct (get_current_ip requests REQUEST_TIMEOUT_SECONDS (at_resolve t))
    as [[current_ip|e] t1] eqn:H1.
  2: { rewrite (main_resolver_raises _ _ _ _ _ _ _ H0 H1) in Hmain. discriminate. }
  destruct (Py.truthy current_ip) eqn:Htrue.
  2: { right. rewrite (main_resolver_failure _ _ _ _ _ _ _ H0 H1 Htrue) in Hmain.
       injection Hmain as <- <-. split; [reflexivity|]. eexists. eexists. reflexivity. }
  pose proof (get_current_ip_value_logs_nothing _ _ _ _ _ H1 Htrue) as Ht1.
  destruct (get_dns_record (zone_id config) (record_name config)
              (build_headers (api_token config)) requests REQUEST_TIMEOUT_SECONDS
              (at_lookup current_ip t1)) as [[dns_record|e] t2] eqn:H2.
  2: { rewrite (main_lookup_raises _ _ _ _ _ _ _ _ _ H0 H1 Htrue H2) in Hmain.
       discriminate. }
  destruct (Py.truthy dns_record) eqn:Htrue2.
  2: { right.
       rewrite (main_lookup_failure _ _ _ _ _ _ _ _ _ H0 H1 Htrue H2 Htrue2) in Hmain.
       injection Hmain as <- <-. split; [reflexivity|]. eexists. eexists. reflexivity. }
  pose proof (get_dns_record_value_logs_nothing _ _ _ _ _ _ _ _ H2 Htrue2) as Ht2.
  destruct (getitem dns_record "content") as [existing_ip|e] eqn:H3.
  2: { rewrite (main_content_raises _ _ _ _ _ _ _ _ _ _ H0 H1 Htrue H2 Htrue2 H3)
         in Hmain. discriminate. }
  assert (Hreach : reaches_comparison environ requests t config current_ip dns_record
                     existing_ip t2)
    by (exists t, t1; repeat split; assumption).
  assert (Herr2 : errors_of t2 = errors_of t) by (rewrite Ht2, Ht1; reflexivity).
  rewrite (main_from_comparison _ _ _ _ _ _ _ _ Hreach) in Hmain.
  destruct (Py.eq current_ip existing_ip).
  { left. injection Hmain as <- <-. split; [reflexivity|exact Herr2]. }
  destruct (update_dns_record (zone_id config) dns_record current_ip
              (build_headers (api_token config)) requests REQUEST_TIMEOUT_SECONDS
              (at_update config current_ip existing_ip t2)) as [[[|]|e] t4] eqn:H4.
  - left. injection Hmain as <- <-. split; [reflexivity|].
    cbn [errors_of]. rewrite (update_true_logs_no_error _ _ _ _ _ _ _ _ H4).
    exact Herr2.
  - right. injection Hmain as <- <-. split; [reflexivity|].
    eexists. eexists. reflexivity.
  - discriminate.
Qed.

(** An instance: the run of the mismatch scenario. *)
Lemma main_exit_code_agrees_with_error_log_witness :
  (0 = 0 /\ errors_of
              (snd (main sample_environ
                      (sample_session (respond 200 "OK" (ip_body "8.8.8.8"))
                                      (respond 200 "OK" (listing [sample_record]))
                                      (respond 200 "OK" JNull))
                      [])) = errors_of [])
  \/ (0 = 1 /\ exists message rest,
         snd (main sample_environ
                (sample_session (respond 200 "OK" (ip_body "8.8.8.8"))
                                (respond 200 "OK" (listing [sample_record]))
                                (respond 200 "OK" JNull))
                []) = EvLog ERROR message :: rest).
Proof.
  apply (main_exit_code_agrees_with_error_log sample_environ
           (sample_session (respond 200 "OK" (ip_body "8.8.8.8"))
                           (respond 200 "OK" (listing [sample_record]))
                           (respond 200 "OK" JNull))
           []).
  reflexivity.
Defined.

(** ** The configuration loader and whitespace *)

Section Padding.

Lemma lstrip_rstrip_space_prefix (w s : string) :
  all_space w = true -> Py.lstrip (Py.rstrip (w +:+ s)) = Py.lstrip (Py.rstrip s).
Proof.
  induction w as [|c w IH]; [reflexivity|].
  cbn [all_space]. intros [Hc Hw]%andb_prop. specialize (IH Hw).
  rewrite append_cons. cbn [Py.rstrip].
  destruct (Py.rstrip (w +:+ s)) as [|c' r'].
  - rewrite Hc. exact IH.
  - cbn [Py.lstrip]. rewrite Hc. exact IH.
Qed.

Lemma rstrip_space_suffix (s w : string) :
  all_space w = true -> Py.rstrip (s +:+ w) = Py.rstrip s.
Proof.
  intros Hw. induction s as [|c s IH].
  - exact (rstrip_all_space w Hw).
  - rewrite append_cons. cbn [Py.rstrip]. rewrite IH. reflexivity.
Qed.

(** Whitespace around a value does not change what [strip] returns. *)
Lemma strip_padding (w1 v w2 : string) :
  all_space w1 = true -> all_space w2 = true ->
  Py.strip (w1 +:+ v +:+ w2) = Py.strip v.
Proof.
  intros H1 H2. unfold Py.strip.
  rewrite (lstrip_rstrip_space_prefix _ _ H1), (rstrip_space_suffix _ _ H2).
  reflexivity.
Qed.

Lemma environ_get_stripped_insert (environ : gmap string string)
    (name value other : string) :
  environ_get_stripped (<[name := value]> environ) other
  = if decide (name = other) then Py.strip value
    else environ_get_stripped environ other.
Proof.
  unfold environ_get_stripped. destruct (decide (name = other)) as [->|Hne].
  - rewrite lookup_insert_eq. destruct value; reflexivity.
  - rewrite lookup_insert_ne by exact Hne. reflexivity.
Qed.

End Padding.

(** X24.  No field of a returned configuration starts or ends with a
    whitespace character. *)
Theorem load_config_fields_are_trimmed
    (environ : gmap string string) (t t' : trace) (config : Config) (field : string) :
  load_config_from_env environ t = (Returned (Some config), t') ->
  In field [api_token config; zone_id config; record_name config] ->
  (forall c rest, field = String c rest -> Py.isspace c = false)
  /\ (forall rest c, field = rest +:+ String c EmptyString -> Py.isspace c = false).
Proof.
  intros Hload Hin.
  destruct (load_config_some _ _ _ _ Hload) as (-> & _).
  cbn [api_token zone_id record_name In] in Hin.
  assert (Hstrip : exists s, field = Py.strip s).
  { destruct Hin as [<-|[<-|[<-|[]]]]; eexists; reflexivity. }
  destruct Hstrip as [s ->]. split.
  - intros c rest H. exact (strip_head _ _ _ H).
  - intros rest c H. exact (strip_last _ _ _ H).
Qed.

(** An instance: the token of the sample environment, set with blanks
    around it. *)
Lemma load_config_fields_are_trimmed_witness :
  (forall c rest, "3f9c2d7e1b" = String c rest -> Py.isspace c = false)
  /\ (forall rest c, "3f9c2d7e1b" = rest +:+ String c EmptyString -> Py.isspace c = false).
Proof.
  apply (load_config_fields_are_trimmed sample_environ [] [] sample_config);
    [reflexivity | left; reflexivity].
Defined.

(** X25.  Whitespace around the value of a variable is immaterial: the
    loader does the same, result and log, on an environment where a
    variable is set to a value and on one where it is set to that value
    with whitespace before and after. *)
Theorem load_config_ignores_padding
    (environ : gmap string string) (t : trace) (name value before after : string) :
  all_space before = true ->
  all_space after = true ->
  load_config_from_env (<[name := before +:+ value +:+ after]> environ) t
  = load_config_from_env (<[name := value]> environ) t.
Proof.
  intros Hb Ha.
  assert (Hsame : forall other,
             environ_get_stripped (<[name := before +:+ value +:+ after]> environ) other
             = environ_get_stripped (<[name := value]> environ) other).
  { intros other. rewrite !environ_get_stripped_insert.
    destruct (decide (name = other)); [apply strip_padding; assumption|reflexivity]. }
  unfold load_config_from_env. rewrite !Hsame. reflexivity.
Qed.

(** An instance: the zone identifier between a tab and a line feed. *)
Lemma load_config_ignores_padding_witness :
  load_config_from_env
    (<["CLOUDFLARE_ZONE_ID" :=
         String (ascii_of_nat 9) EmptyString +:+ "z1" +:+ String (ascii_of_nat 10) EmptyString]>
       sample_environ) []
  = load_config_from_env (<["CLOUDFLARE_ZONE_ID" := "z1"]> sample_environ) [].
Proof.
  apply (load_config_ignores_padding sample_environ [] "CLOUDFLARE_ZONE_ID" "z1");
    reflexivity.
Defined.

(** ** Consecutive runs *)

Section Convergence.

Variables (environ : gmap string string) (config : Config).
Variables (public_ip rid name initial : string).

Let world : Session := storing_provider public_ip rid name initial.

(** The result of the loader does not depend on the trace it starts from. *)
Lemma load_config_any_trace (t t' : trace) :
  load_config_from_env environ t = (Returned (Some config), t) ->
  load_config_from_env environ t' = (Returned (Some config), t').
Proof.
  rewrite !load_config_cases.
  destruct (List.filter _ required_variables); [|discriminate].
  destruct (looks_like_placeholder _); [discriminate|].
  intros [= <-]. reflexivity.
Qed.

(** A string address equals a value exactly when the value is that
    string. *)
Lemma eq_str_iff (s : string) (v : json) : Py.eq (JStr s) v = true <-> v = JStr s.
Proof.
  destruct v as [| | |s'| |]; cbn [Py.eq]; try (split; discriminate).
  rewrite String.eqb_eq. split; [intros ->; reflexivity|intros [= ->]; reflexivity].
Qed.

(** One run against the storing provider, from any trace: it returns 0,
    leaves the provider holding the public address, and has issued a [PUT]
    exactly when the provider held something else. *)
Lemma run_against_storing_provider (t : trace) :
  load_config_from_env environ t = (Returned (Some config), t) ->
  public_ip <> EmptyString ->
  exists t',
    main environ world t = (Returned 0, t')
    /\ stored_content (JStr initial) (requests_of t') = JStr public_ip
    /\ (stored_content (JStr initial) (requests_of t) = JStr public_ip ->
        puts_of t' = puts_of t)
    /\ (stored_content (JStr initial) (requests_of t) <> JStr public_ip ->
        exists put, puts_of t' = put :: puts_of t).
Proof.
  intros H0 Hip.
  set (held := stored_content (JStr initial) (requests_of t)).
  set (fields := [("id", JStr rid); ("name", JStr name); ("content", held);
                  ("ttl", JInt 300); ("proxied", JBool true)]).
  set (t1 := EvRequest resolver_call :: at_resolve t).
  set (t2 := EvRequest (lookup_call config) :: at_lookup (JStr public_ip) t1).
  assert (H1 : get_current_ip world REQUEST_TIMEOUT_SECONDS (at_resolve t)
               = (Returned (JStr public_ip), t1)).
  { apply (get_current_ip_answer world REQUEST_TIMEOUT_SECONDS (at_resolve t)
             (mkResponse 200 "OK" "https://api.example" (JsonValue (ip_body public_ip)))
             [("ip", JStr public_ip)]);
      [reflexivity | simpl; lia | reflexivity | reflexivity]. }
  assert (H2 : get_dns_record (zone_id config) (record_name config)
                 (build_headers (api_token config)) world REQUEST_TIMEOUT_SECONDS
                 (at_lookup (JStr public_ip) t1)
               = (Returned (JObj fields), t2)).
  { apply (get_dns_record_listing (zone_id config) (record_name config)
             (build_headers (api_token config)) world REQUEST_TIMEOUT_SECONDS
             (at_lookup (JStr public_ip) t1)
             (mkResponse 200 "OK" "https://api.example"
                (JsonValue (listing [JObj fields])))
             [("result", JList [JObj fields])] [JObj fields]);
      [reflexivity | simpl; lia | reflexivity | reflexivity]. }
  assert (Hreach : reaches_comparison environ world t config (JStr public_ip)
                     (JObj fields) held t2).
  { exists t, t1. repeat split; try assumption; try reflexivity.
    apply str_truthy_nonempty. exact Hip. }
  rewrite (main_from_comparison _ _ _ _ _ _ _ _ Hreach).
  destruct (Py.eq (JStr public_ip) held) eqn:Heq.
  - apply eq_str_iff in Heq. eexists. split; [reflexivity|].
    split; [exact Heq|]. split; [reflexivity|]. intros Hne. contradiction.
  - assert (Hne : held <> JStr public_ip).
    { intros H. apply eq_str_iff in H. rewrite H in Heq. discriminate. }
    rewrite (update_dns_record_cases (zone_id config) fields (JStr public_ip)
               (build_headers (api_token config)) world REQUEST_TIMEOUT_SECONDS
               (at_update config (JStr public_ip) held t2) (JStr rid) (JStr name)
               eq_refl eq_refl).
    eexists. split; [reflexivity|].
    split; [reflexivity|]. split; [intros H; contradiction|].
    intros _. eexists. reflexivity.
Qed.

End Convergence.

(** X26.  Two consecutive runs against a provider that stores what it is
    sent, with an unchanged public address: both runs return exit code 0,
    the second run issues no [PUT], the two runs together issue at most
    one, and after the first run the provider holds the public address. *)
Theorem second_run_is_a_noop
    (environ : gmap string string) (config : Config)
    (public_ip rid name initial : string) :
  load_config_from_env environ [] = (Returned (Some config), []) ->
  public_ip <> EmptyString ->
  let world := storing_provider public_ip rid name initial in
  let first := main environ world [] in
  let second := main environ world (snd first) in
  fst first = Returned 0
  /\ fst second = Returned 0
  /\ puts_of (snd second) = puts_of (snd first)
  /\ (length (puts_of (snd second)) <= 1)%nat
  /\ stored_content (JStr initial) (requests_of (snd first)) = JStr public_ip.
Proof.
  intros H0 Hip world first second.
  destruct (run_against_storing_provider environ config public_ip rid name initial
              [] H0 Hip) as (t1 & Hrun1 & Hheld1 & Hsame1 & Hput1).
  destruct (run_against_storing_provider environ config public_ip rid name initial
              t1 (load_config_any_trace _ _ _ _ H0) Hip)
    as (t2 & Hrun2 & _ & Hsame2 & _).
  subst second first world. rewrite Hrun1. cbn [fst snd]. rewrite Hrun2. cbn [fst snd].
  split; [reflexivity|]. split; [reflexivity|].
  split; [exact (Hsame2 Hheld1)|]. split; [|exact Hheld1].
  rewrite (Hsame2 Hheld1).
  cbn [requests_of stored_content] in Hsame1, Hput1.
  destruct (decide (initial = public_ip)) as [Heq|Hne].
  - rewrite Hsame1 by (rewrite Heq; reflexivity). cbn. lia.
  - destruct Hput1 as [put ->]; [intros [= H]; contradiction|]. cbn. lia.
Qed.

(** An instance: the mismatch scenario, run twice. *)
Lemma second_run_is_a_noop_witness :
  let world := storing_provider "8.8.8.8" "r1" "a.example.com" "1.2.3.4" in
  let first := main sample_environ world [] in
  let second := main sample_environ world (snd first) in
  fst first = Returned 0
  /\ fst second = Returned 0
  /\ puts_of (snd second) = puts_of (snd first)
  /\ (length (puts_of (snd second)) <= 1)%nat
  /\ stored_content (JStr "1.2.3.4") (requests_of (snd first)) = JStr "8.8.8.8".
Proof.
  apply (second_run_is_a_noop sample_environ sample_config
           "8.8.8.8" "r1" "a.example.com" "1.2.3.4");
    [reflexivity | discriminate].
Defined.
